(** * FakeDetectorTrainer: the training session of [src/training.py]

    A shallow embedding of the class [FakeDetectorTrainer] and of the
    properties its specification states about it.

    The session object, the process-wide torch state (autograd mode, seeds),
    the logger and the file system are one explicit [World]; every method is
    a computation in a state-and-exception monad over it.  An exception
    leaves the world as it was at the [raise], which is what a Python caller
    observes after catching it.

    torch itself (tensors, [nn.Module], the optimizer, autograd) is an
    interface, [Torch]: the harness is verified for every implementation of
    it, and a small linear-regression instance is used to run it. *)

From stdpp Require Import base option list strings gmap.
From Stdlib Require Import ZArith Floats Lia.

Open Scope Z_scope.

(** ** Python values *)

(** What [_mini_batch] returns and what the histories hold: a Python float
    (IEEE 754 binary64) or [None]. *)
Definition PyVal : Type := option float.

(** [bool(v)] for [None] and floats: [None], [0.0] and [-0.0] are falsy,
    everything else (NaN included) is truthy. *)
Definition truthy (v : PyVal) : bool :=
  match v with
  | None => false
  | Some f => negb (PrimFloat.eqb f 0%float)
  end.

(** [float(n)] for the result of [len]: exact below [2^53], rounded to
    nearest above. *)
Definition float_of_len (n : nat) : float :=
  PrimFloat.of_uint63 (Uint63.of_Z (Z.of_nat n)).

(** [range(n)]: empty when [n <= 0]. *)
Definition range (n : Z) : list Z := map Z.of_nat (seq 0 (Z.to_nat n)).

(** The seeds [torch.manual_seed] accepts: [-2^63 <= seed < 2^64]. *)
Definition seed_accepted (seed : Z) : Prop :=
  - 2 ^ 63 <= seed < 2 ^ 64.

(** ** Exceptions *)

(** The exception classes the code meets.  [RuntimeError] stands for the
    class and its subclasses, which is what [except RuntimeError] catches;
    [OtherException] for any class that is not one of the others. *)
Inductive Exn : Type :=
| AttributeError (attr : string)
| ZeroDivisionError
| RuntimeError (msg : string)
| FileNotFoundError (path : string)
| ValueError (msg : string)
| OtherException (cls : string).

Inductive Result (A : Type) : Type :=
| Ok (a : A)
| Err (e : Exn).
Arguments Ok {A} a.
Arguments Err {A} e.

(** [a / n] with [a] a float and [n] an int: Python raises on [n = 0]. *)
Definition py_truediv (a : float) (n : nat) : Result float :=
  match n with
  | O => Err ZeroDivisionError
  | S _ => Ok (PrimFloat.div a (float_of_len n))
  end.

(** ** The torch interface *)

Definition Device : Type := string.

(** The capabilities the session is built from.  [StateDict] is what
    [model.state_dict()] holds (parameters and buffers), [Grads] the [.grad]
    fields of the parameters, [OptState] what [optimizer.state_dict()]
    holds.  A tensor carries its autograd graph, so [backward] needs only
    the loss.  One instance is one model/optimizer architecture. *)
Class Torch : Type := {
  Tensor : Type;
  StateDict : Type;
  Grads : Type;
  OptState : Type;
  (** [x.to(device)] *)
  tensor_to : Tensor -> Device -> Result Tensor;
  (** [module.to(device)], in place *)
  module_to : StateDict -> Device -> Result StateDict;
  (** [module(x)] given the mode flag [module.training] and the autograd
      mode [torch.is_grad_enabled()]; buffers may change *)
  forward : StateDict -> bool -> bool -> Tensor -> Result (Tensor * StateDict);
  (** [loss.backward()]: accumulates into the gradients *)
  backward : Tensor -> Grads -> Result Grads;
  (** [loss.item()] *)
  item : Tensor -> float;
  (** [optimizer.zero_grad()] *)
  zero_grad : Grads -> Grads;
  (** [optimizer.step()]: updates the parameters it was built on *)
  opt_step : OptState -> StateDict -> Grads -> Result (OptState * StateDict);
  (** same keys and shapes: [load_state_dict] accepts the second for the
      first *)
  sd_compatible : StateDict -> StateDict -> bool;
  opt_compatible : OptState -> OptState -> bool;
  (** what a strict [load_state_dict] that raises leaves in the module: the
      tensors of the second whose keys and shapes match have been copied
      into the first by the time the error is raised *)
  sd_rejected : StateDict -> StateDict -> StateDict
}.

Section Trainer.
Context `{T : Torch}.

(** A loss function object: [loss_fn(yhat, y)]. *)
Definition LossFn : Type := Tensor -> Tensor -> Result Tensor.

(** An [nn.Module]: its state, the gradients of its parameters and the flag
    [training] that [train()] and [eval()] set. *)
Record Module : Type := {
  state_dict : StateDict;
  grads : Grads;
  training : bool
}.

(** A data loader: its batches in iteration order; [len] is their number. *)
Definition DataLoader : Type := list (Tensor * Tensor).

(** What a [SummaryWriter] has been asked to do, oldest first. *)
Inductive WriterEvent : Type :=
| AddScalars (main_tag : string) (scalars : list (string * PyVal)) (step : Z)
| Flush.

Record SummaryWriter : Type := {
  log_dir : string;
  events : list WriterEvent
}.

(** The attributes of a [FakeDetectorTrainer].  [device] is [None] while the
    attribute does not exist. *)
Record Session : Type := {
  model : Module;
  optimizer : OptState;
  train_loss_fn : LossFn;
  val_loss_fn : LossFn;
  n_labels : Z;
  train_loader : option DataLoader;
  val_loader : option DataLoader;
  writer : option SummaryWriter;
  losses : list PyVal;
  val_losses : list PyVal;
  total_epochs : Z;
  device : option Device
}.

(** A checkpoint as [torch.save] writes it: a copy of the five entries. *)
Record Checkpoint : Type := {
  ck_model : StateDict;
  ck_optimizer : OptState;
  ck_total_epochs : Z;
  ck_losses : list PyVal;
  ck_val_losses : list PyVal
}.

(** What lives outside the session object.  The seeds are recorded as
    [set_seed] leaves them; [forward] is not given them. *)
Record Env : Type := {
  grad_enabled : bool;          (* torch.is_grad_enabled() *)
  inference : bool;             (* torch.is_inference_mode_enabled() *)
  cudnn_deterministic : bool;
  cudnn_benchmark : bool;
  manual_seed : option Z;       (* last torch.manual_seed *)
  cuda_manual_seed : option Z;  (* last torch.cuda.manual_seed_all *)
  cuda_available : bool;        (* torch.cuda.is_available() *)
  now : string;                 (* datetime.now().strftime("%Y%m%d-%H%M%S") *)
  warnings : list string;       (* logger.warning, oldest first *)
  files : gmap string Checkpoint
}.

Record World : Type := {
  self : Session;
  env : Env
}.

(** *** Field updates *)

Definition with_model (m : Module) (s : Session) : Session :=
  {| model := m; optimizer := optimizer s;
     train_loss_fn := train_loss_fn s; val_loss_fn := val_loss_fn s;
     n_labels := n_labels s;
     train_loader := train_loader s; val_loader := val_loader s;
     writer := writer s; losses := losses s; val_losses := val_losses s;
     total_epochs := total_epochs s; device := device s |}.

Definition with_optimizer (o : OptState) (s : Session) : Session :=
  {| model := model s; optimizer := o;
     train_loss_fn := train_loss_fn s; val_loss_fn := val_loss_fn s;
     n_labels := n_labels s;
     train_loader := train_loader s; val_loader := val_loader s;
     writer := writer s; losses := losses s; val_losses := val_losses s;
     total_epochs := total_epochs s; device := device s |}.

Definition with_loaders (tl vl : option DataLoader) (s : Session) : Session :=
  {| model := model s; optimizer := optimizer s;
     train_loss_fn := train_loss_fn s; val_loss_fn := val_loss_fn s;
     n_labels := n_labels s;
     train_loader := tl; val_loader := vl;
     writer := writer s; losses := losses s; val_losses := val_losses s;
     total_epochs := total_epochs s; device := device s |}.

Definition with_writer (w : option SummaryWriter) (s : Session) : Session :=
  {| model := model s; optimizer := optimizer s;
     train_loss_fn := train_loss_fn s; val_loss_fn := val_loss_fn s;
     n_labels := n_labels s;
     train_loader := train_loader s; val_loader := val_loader s;
     writer := w; losses := losses s; val_losses := val_losses s;
     total_epochs := total_epochs s; device := device s |}.

Definition with_losses (l : list PyVal) (s : Session) : Session :=
  {| model := model s; optimizer := optimizer s;
     train_loss_fn := train_loss_fn s; val_loss_fn := val_loss_fn s;
     n_labels := n_labels s;
     train_loader := train_loader s; val_loader := val_loader s;
     writer := writer s; losses := l; val_losses := val_losses s;
     total_epochs := total_epochs s; device := device s |}.

Definition with_val_losses (l : list PyVal) (s : Session) : Session :=
  {| model := model s; optimizer := optimizer s;
     train_loss_fn := train_loss_fn s; val_loss_fn := val_loss_fn s;
     n_labels := n_labels s;
     train_loader := train_loader s; val_loader := val_loader s;
     writer := writer s; losses := losses s; val_losses := l;
     total_epochs := total_epochs s; device := device s |}.

Definition with_total_epochs (n : Z) (s : Session) : Session :=
  {| model := model s; optimizer := optimizer s;
     train_loss_fn := train_loss_fn s; val_loss_fn := val_loss_fn s;
     n_labels := n_labels s;
     train_loader := train_loader s; val_loader := val_loader s;
     writer := writer s; losses := losses s; val_losses := val_losses s;
     total_epochs := n; device := device s |}.

Definition with_device (d : option Device) (s : Session) : Session :=
  {| model := model s; optimizer := optimizer s;
     train_loss_fn := train_loss_fn s; val_loss_fn := val_loss_fn s;
     n_labels := n_labels s;
     train_loader := train_loader s; val_loader := val_loader s;
     writer := writer s; losses := losses s; val_losses := val_losses s;
     total_epochs := total_epochs s; device := d |}.

Definition with_state_dict (sd : StateDict) (m : Module) : Module :=
  {| state_dict := sd; grads := grads m; training := training m |}.

Definition with_grads (g : Grads) (m : Module) : Module :=
  {| state_dict := state_dict m; grads := g; training := training m |}.

Definition with_training (b : bool) (m : Module) : Module :=
  {| state_dict := state_dict m; grads := grads m; training := b |}.

Definition with_autograd (g i : bool) (e : Env) : Env :=
  {| grad_enabled := g; inference := i;
     cudnn_deterministic := cudnn_deterministic e;
     cudnn_benchmark := cudnn_benchmark e;
     manual_seed := manual_seed e; cuda_manual_seed := cuda_manual_seed e;
     cuda_available := cuda_available e; now := now e;
     warnings := warnings e; files := files e |}.

Definition with_seeds (seed : Z) (e : Env) : Env :=
  {| grad_enabled := grad_enabled e; inference := inference e;
     cudnn_deterministic := true;
     cudnn_benchmark := false;
     manual_seed := Some seed; cuda_manual_seed := Some seed;
     cuda_available := cuda_available e; now := now e;
     warnings := warnings e; files := files e |}.

Definition with_warnings (l : list string) (e : Env) : Env :=
  {| grad_enabled := grad_enabled e; inference := inference e;
     cudnn_deterministic := cudnn_deterministic e;
     cudnn_benchmark := cudnn_benchmark e;
     manual_seed := manual_seed e; cuda_manual_seed := cuda_manual_seed e;
     cuda_available := cuda_available e; now := now e;
     warnings := l; files := files e |}.

Definition with_files (fs : gmap string Checkpoint) (e : Env) : Env :=
  {| grad_enabled := grad_enabled e; inference := inference e;
     cudnn_deterministic := cudnn_deterministic e;
     cudnn_benchmark := cudnn_benchmark e;
     manual_seed := manual_seed e; cuda_manual_seed := cuda_manual_seed e;
     cuda_available := cuda_available e; now := now e;
     warnings := warnings e; files := fs |}.

(** ** The monad of methods *)

Definition M (A : Type) : Type := World -> Result A * World.

#[global] Instance M_ret : MRet M := fun A a w => (Ok a, w).

#[global] Instance M_bind : MBind M := fun A B k c w =>
  match c w with
  | (Ok a, w') => k a w'
  | (Err e, w') => (Err e, w')
  end.

Definition raise {A : Type} (e : Exn) : M A := fun w => (Err e, w).

(** The result of a call into torch: returned or raised. *)
Definition lift {A : Type} (r : Result A) : M A := fun w => (r, w).

Definition get_self : M Session := fun w => (Ok (self w), w).

Definition get_env : M Env := fun w => (Ok (env w), w).

Definition update_self (f : Session -> Session) : M unit :=
  fun w => (Ok tt, {| self := f (self w); env := env w |}).

Definition update_env (f : Env -> Env) : M unit :=
  fun w => (Ok tt, {| self := self w; env := f (env w) |}).

(** [for a in l: body], the loop's local variables being [acc]. *)
Fixpoint for_in {A L : Type} (l : list A) (acc : L) (body : L -> A -> M L)
  : M L :=
  match l with
  | [] => mret acc
  | a :: l' => acc' ← body acc a; for_in l' acc' body
  end.

(** [try: body / except RuntimeError: handler] *)
Definition try_except_RuntimeError {A : Type} (body handler : M A) : M A :=
  fun w =>
    match body w with
    | (Err (RuntimeError _), w') => handler w'
    | r => r
    end.

(** [with torch.no_grad(): body]; the previous mode comes back on the way
    out, also when [body] raises. *)
Definition with_no_grad {A : Type} (body : M A) : M A :=
  fun w =>
    let g := grad_enabled (env w) in
    let '(r, w') :=
      body {| self := self w;
              env := with_autograd false (inference (env w)) (env w) |} in
    (r, {| self := self w';
           env := with_autograd g (inference (env w')) (env w') |}).

(** [with torch.inference_mode(): body]: gradient tracking off and
    inference mode on, both restored on the way out. *)
Definition with_inference_mode {A : Type} (body : M A) : M A :=
  fun w =>
    let g := grad_enabled (env w) in
    let i := inference (env w) in
    let '(r, w') :=
      body {| self := self w; env := with_autograd false true (env w) |} in
    (r, {| self := self w'; env := with_autograd g i (env w') |}).

(** ** Calls on the injected objects *)

(** [self.device]: an [AttributeError] while [to] has not assigned it. *)
Definition self_device : M Device :=
  s ← get_self;
  match device s with
  | Some d => mret d
  | None => raise (AttributeError "device")
  end.

(** [self.model.train()] *)
Definition model_train : M unit :=
  update_self (fun s => with_model (with_training true (model s)) s).

(** [self.model.eval()] *)
Definition model_eval : M unit :=
  update_self (fun s => with_model (with_training false (model s)) s).

(** [self.model(x)] *)
Definition model_call (x : Tensor) : M Tensor :=
  s ← get_self;
  e ← get_env;
  r ← lift (forward (state_dict (model s)) (training (model s))
              (grad_enabled e) x);
  update_self (fun s => with_model (with_state_dict r.2 (model s)) s);;
  mret r.1.

(** [self.model.to(device)] *)
Definition model_to (d : Device) : M unit :=
  s ← get_self;
  sd ← lift (module_to (state_dict (model s)) d);
  update_self (fun s => with_model (with_state_dict sd (model s)) s).

(** [self.optimizer.zero_grad()] *)
Definition optimizer_zero_grad : M unit :=
  update_self (fun s =>
    with_model (with_grads (zero_grad (grads (model s))) (model s)) s).

(** [loss.backward()] *)
Definition loss_backward (loss : Tensor) : M unit :=
  s ← get_self;
  g ← lift (backward loss (grads (model s)));
  update_self (fun s => with_model (with_grads g (model s)) s).

(** [self.optimizer.step()] *)
Definition optimizer_step : M unit :=
  s ← get_self;
  r ← lift (opt_step (optimizer s) (state_dict (model s)) (grads (model s)));
  update_self (fun s =>
    with_optimizer r.1 (with_model (with_state_dict r.2 (model s)) s)).

(** [self.model.load_state_dict(sd)], strict.  A module that rejects [sd]
    raises [RuntimeError] only after the traversal: it is then left with
    [sd_rejected], not with what it had. *)
Definition load_state_dict (new : StateDict) : M unit :=
  s ← get_self;
  let cur := state_dict (model s) in
  if sd_compatible cur new then
    update_self (fun s => with_model (with_state_dict new (model s)) s)
  else
    update_self
      (fun s => with_model (with_state_dict (sd_rejected cur new) (model s)) s);;
    raise (RuntimeError "Error(s) in loading state_dict").

(** [optimizer.load_state_dict(sd)]: the saved state is checked against the
    parameter groups before anything is assigned. *)
Definition opt_load_state_dict (cur new : OptState) : Result OptState :=
  if opt_compatible cur new then Ok new
  else Err (ValueError "loaded state dict has a different number of parameter groups").

(** [logger.warning(msg)] *)
Definition logger_warning (msg : string) : M unit :=
  update_env (fun e => with_warnings (warnings e ++ [msg]) e).

(** [torch.save(checkpoint, path)], for a path that can be written: the
    file system is a map from path strings to what was saved there.  That
    [torch.save] raises on a path it cannot open, and that two strings can
    name one file, is not modelled; no statement below is about either. *)
Definition torch_save (c : Checkpoint) (path : string) : M unit :=
  update_env (fun e => with_files (<[path := c]> (files e)) e).

(** [torch.load(path)] *)
Definition torch_load (path : string) : M Checkpoint :=
  e ← get_env;
  match files e !! path with
  | Some c => mret c
  | None => raise (FileNotFoundError path)
  end.

(** [writer.add_scalars(main_tag, scalars, step)]: the writer is the
    record of the calls made on it (the event files it writes under
    [log_dir] are this record and not part of [files]).  The real method
    raises when a value is [None]; where a statement needs the call to go
    through it assumes [scalars_accepted]. *)
Definition add_scalars (w : SummaryWriter) (main_tag : string)
    (scalars : list (string * PyVal)) (step : Z) : SummaryWriter :=
  {| log_dir := log_dir w;
     events := events w ++ [AddScalars main_tag scalars step] |}.

(** [writer.flush()] *)
Definition flush (w : SummaryWriter) : SummaryWriter :=
  {| log_dir := log_dir w; events := events w ++ [Flush] |}.

(** ** The methods of [FakeDetectorTrainer] *)

Definition __init__ (model : Module) (optimizer : OptState)
    (train_loss_fn val_loss_fn : LossFn) : Session :=
  {| model := model;
     optimizer := optimizer;
     train_loss_fn := train_loss_fn;
     val_loss_fn := val_loss_fn;
     n_labels := 1;
     train_loader := None;
     val_loader := None;
     writer := None;
     losses := [];
     val_losses := [];
     total_epochs := 0;
     device := None |}.

Definition to (device : Device) : M unit :=
  try_except_RuntimeError
    (update_self (with_device (Some device));;
     model_to device)
    (e ← get_env;
     update_self
       (with_device (Some (if cuda_available e then "cuda" else "cpu")));;
     d ← self_device;
     logger_warning
       ("Device " +:+ device +:+ " not found. Using " +:+ d +:+ " instead.");;
     d ← self_device;
     model_to d).

(** [set_seed], for a seed [torch.manual_seed] accepts: the real method
    raises on any other after it has set the two cudnn flags; where a
    statement needs the seeding to go through it assumes [seed_accepted]. *)
Definition set_seed (seed : Z) : M unit :=
  update_env (with_seeds seed).

Definition set_loaders (train_loader : DataLoader)
    (val_loader : option DataLoader) : M unit :=
  update_self (with_loaders (Some train_loader) val_loader).

Definition set_tensorboard (name log_dir : string) : M unit :=
  e ← get_env;
  let suffix := now e in
  update_self
    (with_writer
       (Some {| log_dir := log_dir +:+ "/" +:+ name +:+ "_" +:+ suffix;
                events := [] |})).

Definition train_step (x y : Tensor) : M float :=
  model_train;;
  optimizer_zero_grad;;
  yhat ← model_call x;
  s ← get_self;
  loss ← lift (train_loss_fn s yhat y);
  loss_backward loss;;
  optimizer_step;;
  mret (item loss).

Definition val_step (x y : Tensor) : M float :=
  model_eval;;
  with_no_grad
    (yhat ← model_call x;
     s ← get_self;
     loss ← lift (val_loss_fn s yhat y);
     mret (item loss)).

(** The body of the loop over the batches of [_mini_batch]:
    [x, y = x.to(self.device), y.to(self.device)] and
    [mini_batch_loss += step(x, y)]. *)
Definition batch_body (step : Tensor -> Tensor -> M float)
    (mini_batch_loss : float) (b : Tensor * Tensor) : M float :=
  d ← self_device;
  x ← lift (tensor_to b.1 d);
  d ← self_device;
  y ← lift (tensor_to b.2 d);
  l ← step x y;
  mret (PrimFloat.add mini_batch_loss l).

Definition _mini_batch (validation : bool) : M PyVal :=
  s ← get_self;
  let data_loader := if validation then val_loader s else train_loader s in
  let step := if validation then val_step else train_step in
  match data_loader with
  | None => mret None
  | Some batches =>
      mini_batch_loss ← for_in batches 0%float (batch_body step);
      r ← lift (py_truediv mini_batch_loss (length batches));
      mret (Some r)
  end.

(** The end of the loop body: [if self.writer: ... add_scalars(...)]. *)
Definition emit (train_loss val_loss : PyVal) (epoch : Z) : M unit :=
  s ← get_self;
  match writer s with
  | Some w =>
      let scalars := [("loss/train", train_loss)] in
      let scalars :=
        if truthy val_loss then scalars ++ [("loss/val", val_loss)]
        else scalars in
      update_self (with_writer (Some (add_scalars w "loss" scalars epoch)))
  | None => mret tt
  end.

(** The body of the epoch loop of [train]. *)
Definition train_epoch (epoch : Z) : M unit :=
  update_self (fun s => with_total_epochs (total_epochs s + 1) s);;
  train_loss ← _mini_batch false;
  update_self (fun s => with_losses (losses s ++ [train_loss]) s);;
  val_loss ←
    with_inference_mode
      (val_loss ← _mini_batch true;
       update_self (fun s => with_val_losses (val_losses s ++ [val_loss]) s);;
       mret val_loss);
  emit train_loss val_loss epoch.

Definition train (n_epochs : Z) (seed : Z) : M unit :=
  set_seed seed;;
  for_in (range n_epochs) tt (fun _ epoch => train_epoch epoch);;
  s ← get_self;
  match writer s with
  | Some w => update_self (with_writer (Some (flush w)))
  | None => mret tt
  end.

Definition save_model (path : string) : M unit :=
  s ← get_self;
  let checkpoint :=
    {| ck_model := state_dict (model s);
       ck_optimizer := optimizer s;
       ck_total_epochs := total_epochs s;
       ck_losses := losses s;
       ck_val_losses := val_losses s |} in
  torch_save checkpoint path.

Definition load_model (path : string) (eval_mode : bool) : M unit :=
  checkpoint ← torch_load path;
  load_state_dict (ck_model checkpoint);;
  s ← get_self;
  o ← lift (opt_load_state_dict (optimizer s) (ck_optimizer checkpoint));
  update_self (with_optimizer o);;
  update_self (with_total_epochs (ck_total_epochs checkpoint));;
  update_self (with_losses (ck_losses checkpoint));;
  update_self (with_val_losses (ck_val_losses checkpoint));;
  if eval_mode then model_eval else model_train.

Definition predict (x : Tensor) : M Tensor :=
  model_eval;;
  with_inference_mode
    (d ← self_device;
     x ← lift (tensor_to x d);
     model_call x).

(** [add_grap].  The session is no other after it than before; what the
    method does to the outside is the warning and the call of
    [writer.add_graph], so the computation returns the arguments of that call,
    [None] when the call is not made (the method itself returns [None]).
    [next(iter(loader))] on a loader of no batches raises [StopIteration]; the
    first argument, [self.model], is read before the second is computed. *)
Definition add_grap : M (option (Module * Tensor)) :=
  s ← get_self;
  match train_loader s with
  | None =>
      logger_warning
        "Train loader not found. Cannot add graph to tensorboard.";;
      mret None
  | Some batches =>
      match writer s with
      | Some _ =>
          let m := model s in
          b ← match batches with
              | b :: _ => mret b
              | [] => raise (OtherException "StopIteration")
              end;
          d ← self_device;
          x ← lift (tensor_to b.1 d);
          mret (Some (m, x))
      | None => mret None
      end
  end.

End Trainer.

(** ** What the specification calls the epoch average *)

(** The unweighted arithmetic mean: the sum of the per-batch losses, taken
    in order from [0.0], over their number. *)
Definition mean (ls : list float) : float :=
  PrimFloat.div (fold_left PrimFloat.add ls 0%float)
                (float_of_len (length ls)).

Section Reference.
Context `{T : Torch}.

(** One pass as the specification words it: every batch of the source, once
    and in the source's order, is moved to the device and given to the step
    function; [ls] are the losses the steps returned. *)
Inductive steps_run (step : Tensor -> Tensor -> M float) (d : Device)
  : list (Tensor * Tensor) -> World -> list float -> World -> Prop :=
| steps_run_nil w :
    steps_run step d [] w [] w
| steps_run_cons b bs x y w l w1 ls w2 :
    tensor_to b.1 d = Ok x ->
    tensor_to b.2 d = Ok y ->
    step x y w = (Ok l, w1) ->
    steps_run step d bs w1 ls w2 ->
    steps_run step d (b :: bs) w (l :: ls) w2.

(** A series of [train] calls, each with its [n_epochs] and [seed]. *)
Definition train_series (calls : list (Z * Z)) : M unit :=
  for_in calls tt (fun _ c => train c.1 c.2).

(** The epochs a series of calls asks for: [range(n)] is empty for
    [n <= 0]. *)
Definition epochs_requested (calls : list (Z * Z)) : Z :=
  foldr (fun c acc => Z.max 0 c.1 + acc) 0 calls.

(** An epoch, and [train], without a validation pass: the training pass
    runs, the validation history gets the absent value. *)
Definition train_epoch_no_val (epoch : Z) : M unit :=
  update_self (fun s => with_total_epochs (total_epochs s + 1) s);;
  train_loss ← _mini_batch false;
  update_self (fun s => with_losses (losses s ++ [train_loss]) s);;
  update_self (fun s => with_val_losses (val_losses s ++ [None]) s);;
  emit train_loss None epoch.

Definition train_no_val (n_epochs : Z) (seed : Z) : M unit :=
  set_seed seed;;
  for_in (range n_epochs) tt (fun _ epoch => train_epoch_no_val epoch);;
  s ← get_self;
  match writer s with
  | Some w => update_self (with_writer (Some (flush w)))
  | None => mret tt
  end.

(** What one epoch gives the writer, and what a run of epochs gives it. *)
Definition scalars_emitted (train_loss val_loss : PyVal)
  : list (string * PyVal) :=
  ("loss/train", train_loss) ::
  (if truthy val_loss then [("loss/val", val_loss)] else []).

Fixpoint emissions (epochs : list Z) (tls vls : list PyVal)
  : list WriterEvent :=
  match epochs, tls, vls with
  | epoch :: epochs', tl :: tls', vl :: vls' =>
      AddScalars "loss" (scalars_emitted tl vl) epoch ::
      emissions epochs' tls' vls'
  | _, _, _ => []
  end.

(** [add_scalars] is never given [None]: there is no writer, or a training
    source is bound, so that the training loss of an epoch is a float. *)
Definition scalars_accepted (s : Session) : Prop :=
  writer s = None \/ train_loader s <> None.

(** The three fields of the training state are in step. *)
Definition in_step (s : Session) : Prop :=
  total_epochs s = Z.of_nat (length (losses s)) /\
  length (losses s) = length (val_losses s).

(** The loop of [train] over the epoch indices [l]. *)
Definition epoch_loop (l : list Z) : M unit :=
  for_in l tt (fun _ epoch => train_epoch epoch).

(** [keeps g c]: whether [c] returns or raises, the observation [g] of the
    session is what it was. *)
Definition keeps {A X : Type} (g : Session -> X) (c : M A) : Prop :=
  forall w r w', c w = (r, w') -> g (self w') = g (self w).

(** [env_stable c]: whether [c] returns or raises, what lives outside the
    session (autograd mode, seeds, log, files) is what it was. *)
Definition env_stable {A : Type} (c : M A) : Prop :=
  forall w r w', c w = (r, w') -> env w' = env w.

(** The training state: the three fields a checkpoint carries besides the
    parameters. *)
Definition history (s : Session) :=
  (total_epochs s, losses s, val_losses s).

(** The snapshot [save_model] writes of a session. *)
Definition snapshot (s : Session) : Checkpoint :=
  {| ck_model := state_dict (model s);
     ck_optimizer := optimizer s;
     ck_total_epochs := total_epochs s;
     ck_losses := losses s;
     ck_val_losses := val_losses s |}.

(** A session after a [load_model] of [ck] that went through: the
    checkpoint's five entries and the mode asked for; the rest is the
    session's own. *)
Definition loaded (ck : Checkpoint) (eval_mode : bool) (s : Session)
  : Session :=
  {| model := {| state_dict := ck_model ck;
                 grads := grads (model s);
                 training := negb eval_mode |};
     optimizer := ck_optimizer ck;
     train_loss_fn := train_loss_fn s; val_loss_fn := val_loss_fn s;
     n_labels := n_labels s;
     train_loader := train_loader s; val_loader := val_loader s;
     writer := writer s;
     losses := ck_losses ck; val_losses := ck_val_losses ck;
     total_epochs := ck_total_epochs ck;
     device := device s |}.

(** The step tags of the [add_scalars] calls among writer events. *)
Definition steps_of (evs : list WriterEvent) : list Z :=
  flat_map (fun ev => match ev with
                      | AddScalars _ _ step => [step]
                      | Flush => []
                      end) evs.

(** Everything of a session but its model and optimizer. *)
Definition configuration (s : Session) :=
  (train_loader s, val_loader s, writer s, device s,
   (losses s, val_losses s, total_epochs s)).

End Reference.

(** ** A torch to run the session on: one weight, fitted by SGD *)

Module Toy.

(** A tensor of floats together with the derivative of its (single) entry
    in the weight, which is all the autograd graph this model needs. *)
Record ToyTensor : Type := {
  values : list float;
  grad_fn : float
}.

Definition tensor (l : list float) : ToyTensor :=
  {| values := l; grad_fn := 0%float |}.

(** The machine has a CPU and one GPU. *)
Definition known_device (d : Device) : bool :=
  String.eqb d "cpu" || String.eqb d "cuda".

Definition unknown_device {A : Type} (d : Device) : Result A :=
  Err (RuntimeError ("Expected one of cpu, cuda device type at start of device string: " +:+ d)).

Definition shape_mismatch {A : Type} : Result A :=
  Err (RuntimeError "shape mismatch").

(** [yhat = w * x] on tensors of one entry. *)
Definition toy_forward (w : float) (training grad : bool) (x : ToyTensor)
  : Result (ToyTensor * float) :=
  match values x with
  | [v] => Ok ({| values := [PrimFloat.mul w v];
                  grad_fn := if grad then v else 0%float |}, w)
  | _ => shape_mismatch
  end.

(** The squared error of one entry. *)
Definition mse (yhat y : ToyTensor) : Result ToyTensor :=
  match values yhat, values y with
  | [a], [b] =>
      let d := PrimFloat.sub a b in
      Ok {| values := [PrimFloat.mul d d];
            grad_fn := PrimFloat.mul (PrimFloat.mul 2%float d) (grad_fn yhat) |}
  | _, _ => shape_mismatch
  end.

#[export] Instance torch : Torch := {|
  Tensor := ToyTensor;
  StateDict := float;
  Grads := float;
  OptState := Z;
  tensor_to x d := if known_device d then Ok x else unknown_device d;
  module_to w d := if known_device d then Ok w else unknown_device d;
  forward := toy_forward;
  backward loss g := Ok (PrimFloat.add g (grad_fn loss));
  item loss := match values loss with v :: _ => v | [] => 0%float end;
  zero_grad _ := 0%float;
  opt_step n w g :=
    Ok (n + 1, PrimFloat.sub w (PrimFloat.mul 0.03125%float g));
  sd_compatible _ _ := true;
  opt_compatible _ _ := true;
  sd_rejected cur _ := cur
|}.

Definition net (w : float) : Module :=
  {| state_dict := w; grads := 0%float; training := true |}.

Definition os : Env :=
  {| grad_enabled := true; inference := false;
     cudnn_deterministic := false; cudnn_benchmark := true;
     manual_seed := None; cuda_manual_seed := None;
     cuda_available := true; now := "20240101-120000";
     warnings := []; files := ∅ |}.

(** A session as the constructor leaves it. *)
Definition fresh : World :=
  {| self := __init__ (net 0%float) 0 mse mse; env := os |}.

Definition batch (x y : float) : ToyTensor * ToyTensor :=
  (tensor [x], tensor [y]).

(** Four batches of the line [y = 2 x]. *)
Definition data : DataLoader :=
  [batch 1 2; batch 2 4; batch 3 6; batch 4 8]%float.

(** A batch whose target has the wrong shape. *)
Definition bad_batch : ToyTensor * ToyTensor :=
  (tensor [1%float], tensor [1%float; 2%float]).

(** [s = FakeDetectorTrainer(...)] followed by the calls in [setup]. *)
Definition after (setup : M unit) : World := (setup fresh).2.

(** [to("cpu")], [set_loaders(data, val)] *)
Definition ready (val : option DataLoader) : World :=
  after (to "cpu";; set_loaders data val).

(** A training source whose only batch makes the loss function raise. *)
Definition bad_train : World :=
  after (to "cpu";; set_loaders [bad_batch] None).

(** A validation source whose only batch makes the loss function raise. *)
Definition bad_val : World :=
  after (to "cpu";; set_loaders data (Some [bad_batch])).

(** A training source of no batches. *)
Definition empty_source : World :=
  after (to "cpu";; set_loaders [] None).

(** A writer, and a validation source on which the model is exact: the
    validation loss is [0.0]. *)
Definition logged : World :=
  after (to "cpu";; set_loaders data (Some [batch 0 0]%float);;
         set_tensorboard "run" "runs").

(** Loaders but no device: [to] is not called. *)
Definition no_device : World :=
  after (set_loaders data None).

(** A validation source of no batches. *)
Definition empty_val : World :=
  after (to "cpu";; set_loaders data (Some []);;
         set_tensorboard "run" "runs").

End Toy.

(** ** A torch whose state dicts have shapes: a vector of weights *)

Module Shaped.

Fixpoint dot (w x : list float) : float :=
  match w, x with
  | a :: w', b :: x' => PrimFloat.add (PrimFloat.mul a b) (dot w' x')
  | _, _ => 0%float
  end.

(** A build without CUDA: moving a module to ["cuda"] raises
    [AssertionError], to a device of unknown type [RuntimeError]. *)
Definition move {A : Type} (a : A) (d : Device) : Result A :=
  if String.eqb d "cpu" then Ok a
  else if String.eqb d "cuda" then Err (OtherException "AssertionError")
  else Err (RuntimeError ("Expected one of cpu, cuda device type at start of device string: " +:+ d)).

(** [load_state_dict] accepts a vector of the same length, and an optimizer
    state of the same number of parameter groups.  The module has one
    tensor: when its shape does not match, nothing has been copied. *)
#[export] Instance torch : Torch := {|
  Tensor := list float;
  StateDict := list float;
  Grads := list float;
  OptState := nat;
  tensor_to := move;
  module_to := move;
  forward w training grad x :=
    if Nat.eqb (length w) (length x) then Ok ([dot w x], w)
    else Err (RuntimeError "shape mismatch");
  backward loss g := Ok g;
  item loss := match loss with v :: _ => v | [] => 0%float end;
  zero_grad g := map (fun _ => 0%float) g;
  opt_step n w g := Ok (n, w);
  sd_compatible a b := Nat.eqb (length a) (length b);
  opt_compatible a b := Nat.eqb a b;
  sd_rejected cur _ := cur
|}.

Definition identity_loss : LossFn := fun yhat _ => Ok yhat.

Definition session (w : list float) (groups : nat) : Session :=
  __init__ {| state_dict := w; grads := map (fun _ => 0%float) w;
              training := true |}
           groups identity_loss identity_loss.

Definition os : Env :=
  {| grad_enabled := true; inference := false;
     cudnn_deterministic := false; cudnn_benchmark := true;
     manual_seed := None; cuda_manual_seed := None;
     cuda_available := false; now := "20240101-120000";
     warnings := []; files := ∅ |}.

End Shaped.

(** * Properties *)

Section Properties.
Context `{T : Torch}.

(** ** Reasoning about computations *)

Lemma bind_Ok {A B : Type} (c : M A) (k : A -> M B) w b w' :
  (c ≫= k) w = (Ok b, w') <->
  exists a w1, c w = (Ok a, w1) /\ k a w1 = (Ok b, w').
Proof.
  unfold mbind, M_bind. split.
  - destruct (c w) as [[a|e] w1]; intros H; [eauto | discriminate].
  - intros (a & w1 & -> & H). exact H.
Qed.

Lemma bind_Err {A B : Type} (c : M A) (k : A -> M B) w e w' :
  (c ≫= k) w = (Err e, w') <->
  c w = (Err e, w') \/ exists a w1, c w = (Ok a, w1) /\ k a w1 = (Err e, w').
Proof.
  unfold mbind, M_bind. split.
  - destruct (c w) as [[a|e1] w1]; intros H; [right; eauto |].
    injection H as -> ->. left. reflexivity.
  - intros [-> | (a & w1 & -> & H)]; [reflexivity | exact H].
Qed.

Lemma bind_run {A B : Type} (c : M A) (k : A -> M B) w a w1 :
  c w = (Ok a, w1) -> (c ≫= k) w = k a w1.
Proof. unfold mbind, M_bind. intros ->. reflexivity. Qed.

Lemma bind_fail {A B : Type} (c : M A) (k : A -> M B) w e w1 :
  c w = (Err e, w1) -> (c ≫= k) w = (Err e, w1).
Proof. unfold mbind, M_bind. intros ->. reflexivity. Qed.

Section Keeps.
Context {X : Type} (g : Session -> X).

Lemma keeps_ret {A : Type} (a : A) : keeps g (mret a).
Proof. intros w r w' [= _ <-]. reflexivity. Qed.

Lemma keeps_raise {A : Type} (e : Exn) : keeps g (raise e : M A).
Proof. intros w r w' [= _ <-]. reflexivity. Qed.

Lemma keeps_lift {A : Type} (r : Result A) : keeps g (lift r).
Proof. intros w r' w' [= _ <-]. reflexivity. Qed.

Lemma keeps_get_self : keeps g get_self.
Proof. intros w r w' [= _ <-]. reflexivity. Qed.

Lemma keeps_get_env : keeps g get_env.
Proof. intros w r w' [= _ <-]. reflexivity. Qed.

Lemma keeps_update_env (f : Env -> Env) : keeps g (update_env f).
Proof. intros w r w' [= _ <-]. reflexivity. Qed.

Lemma keeps_update_self (f : Session -> Session) :
  (forall s, g (f s) = g s) -> keeps g (update_self f).
Proof. intros Hf w r w' [= _ <-]. apply Hf. Qed.

Lemma keeps_bind {A B : Type} (c : M A) (k : A -> M B) :
  keeps g c -> (forall a, keeps g (k a)) -> keeps g (c ≫= k).
Proof.
  intros Hc Hk w r w'. unfold mbind, M_bind.
  destruct (c w) as [[a|e] w1] eqn:E.
  - intros H. rewrite (Hk _ _ _ _ H). exact (Hc _ _ _ E).
  - intros [= _ <-]. exact (Hc _ _ _ E).
Qed.

Lemma keeps_for_in {A L : Type} (l : list A) (body : L -> A -> M L) :
  (forall acc a, keeps g (body acc a)) ->
  forall acc, keeps g (for_in l acc body).
Proof.
  intros Hb. induction l as [|a l IH]; intros acc; simpl.
  - apply keeps_ret.
  - apply keeps_bind; [apply Hb | intros acc'; apply IH].
Qed.

Lemma keeps_with_no_grad {A : Type} (c : M A) :
  keeps g c -> keeps g (with_no_grad c).
Proof.
  intros Hc w r w'. unfold with_no_grad.
  destruct (c _) as [r1 w1] eqn:E. intros [= _ <-].
  exact (Hc _ _ _ E).
Qed.

Lemma keeps_with_inference_mode {A : Type} (c : M A) :
  keeps g c -> keeps g (with_inference_mode c).
Proof.
  intros Hc w r w'. unfold with_inference_mode.
  destruct (c _) as [r1 w1] eqn:E. intros [= _ <-].
  exact (Hc _ _ _ E).
Qed.

End Keeps.

(** Splits a goal [keeps g c] along the structure of [c]. *)
Ltac keeps_step :=
  first
    [ apply keeps_bind; [| intros ?]
    | apply keeps_ret | apply keeps_raise | apply keeps_lift
    | apply keeps_get_self | apply keeps_get_env | apply keeps_update_env
    | apply keeps_update_self; intros ?; reflexivity
    | apply keeps_with_no_grad | apply keeps_with_inference_mode
    | apply keeps_for_in; intros ? ? ].

(** The steps touch the model and the optimizer, nothing else. *)
Lemma self_device_keeps {X : Type} (g : Session -> X) : keeps g self_device.
Proof.
  unfold self_device. keeps_step; [keeps_step|].
  destruct (device _); keeps_step.
Qed.

Lemma train_step_configuration x y : keeps configuration (train_step x y).
Proof.
  unfold train_step, model_train, optimizer_zero_grad, model_call,
    loss_backward, optimizer_step.
  repeat keeps_step.
Qed.

Lemma val_step_configuration x y : keeps configuration (val_step x y).
Proof.
  unfold val_step, model_eval, model_call.
  repeat keeps_step.
Qed.

Lemma batch_body_configuration (validation : bool) acc b :
  keeps configuration
    (batch_body (if validation then val_step else train_step) acc b).
Proof.
  unfold batch_body. repeat (keeps_step; try apply self_device_keeps).
  destruct validation;
    [apply val_step_configuration | apply train_step_configuration].
Qed.

Lemma _mini_batch_configuration validation :
  keeps configuration (_mini_batch validation).
Proof.
  unfold _mini_batch. keeps_step; [keeps_step|].
  destruct (if validation then _ else _); [|keeps_step].
  keeps_step; [| repeat keeps_step].
  keeps_step. apply batch_body_configuration.
Qed.

(** ** One epoch *)

Lemma update_self_run (f : Session -> Session) w r w' :
  update_self f w = (r, w') ->
  r = Ok tt /\ w' = {| self := f (self w); env := env w |}.
Proof. intros [= <- <-]. split; reflexivity. Qed.

Lemma with_inference_mode_self {A : Type} (c : M A) w r w' :
  with_inference_mode c w = (r, w') ->
  exists w0 w1, self w0 = self w /\ c w0 = (r, w1) /\ self w' = self w1.
Proof.
  unfold with_inference_mode.
  destruct (c _) as [r1 w1] eqn:E. intros [= <- <-].
  eexists _, w1. split; [|split; [exact E | reflexivity]]. reflexivity.
Qed.

Lemma emit_run train_loss val_loss epoch w :
  exists w', emit train_loss val_loss epoch w = (Ok tt, w') /\
    model (self w') = model (self w) /\
    optimizer (self w') = optimizer (self w) /\
    train_loader (self w') = train_loader (self w) /\
    val_loader (self w') = val_loader (self w) /\
    device (self w') = device (self w) /\
    losses (self w') = losses (self w) /\
    val_losses (self w') = val_losses (self w) /\
    total_epochs (self w') = total_epochs (self w).
Proof.
  unfold emit, mbind, M_bind, get_self. destruct (writer (self w)).
  - eexists. split; [reflexivity | simpl; tauto].
  - eexists. split; [reflexivity | tauto].
Qed.

(** An epoch that completes has run both passes, counted itself and
    appended one entry to each history before the emission. *)
Lemma train_epoch_passes epoch w u w' :
  train_epoch epoch w = (Ok u, w') ->
  exists train_loss val_loss w4,
    total_epochs (self w4) = total_epochs (self w) + 1 /\
    losses (self w4) = losses (self w) ++ [train_loss] /\
    val_losses (self w4) = val_losses (self w) ++ [val_loss] /\
    writer (self w4) = writer (self w) /\
    emit train_loss val_loss epoch w4 = (Ok u, w').
Proof.
  unfold train_epoch. intros H.
  apply bind_Ok in H as (? & w1 & H1 & H).
  apply update_self_run in H1 as [_ ?]; subst w1.
  apply bind_Ok in H as (tl & w2 & H2 & H).
  apply _mini_batch_configuration in H2 as C2.
  apply bind_Ok in H as (? & w3 & H3 & H).
  apply update_self_run in H3 as [_ ?]; subst w3.
  apply bind_Ok in H as (vl & w4 & H4 & H).
  apply with_inference_mode_self in H4 as (w30 & w5 & E0 & H4 & E5).
  apply bind_Ok in H4 as (vl' & w6 & H6 & H4).
  apply _mini_batch_configuration in H6 as C6.
  apply bind_Ok in H4 as (? & w7 & H7 & H4).
  apply update_self_run in H7 as [_ ?]; subst w7.
  injection H4 as ? ?; subst vl' w5.
  exists tl, vl, w4. rewrite E5. simpl. unfold configuration in C2, C6.
  rewrite E0 in C6. simpl in C2, C6.
  injection C2 as _ _ W2 _ L2 V2 T2. injection C6 as _ _ W6 _ L6 V6 T6.
  rewrite T6, L6, V6, W6, T2, L2, V2, W2. auto.
Qed.

Lemma train_epoch_Ok epoch w u w' :
  train_epoch epoch w = (Ok u, w') ->
  total_epochs (self w') = total_epochs (self w) + 1 /\
  exists train_loss val_loss,
    losses (self w') = losses (self w) ++ [train_loss] /\
    val_losses (self w') = val_losses (self w) ++ [val_loss].
Proof.
  intros H.
  apply train_epoch_passes in H as (tl & vl & w4 & Ht & Hl & Hv & _ & H).
  destruct (emit_run tl vl epoch w4) as (w8 & E8 & F).
  rewrite E8 in H. injection H as _ <-.
  destruct F as (_ & _ & _ & _ & _ & -> & -> & ->).
  rewrite Ht, Hl, Hv. eauto.
Qed.

(** An epoch that raises has counted itself all the same; the validation
    history is untouched, and the training history has the epoch's entry
    when the training pass was already over. *)
Lemma train_epoch_Err epoch w e w' :
  train_epoch epoch w = (Err e, w') ->
  total_epochs (self w') = total_epochs (self w) + 1 /\
  val_losses (self w') = val_losses (self w) /\
  (losses (self w') = losses (self w) \/
   exists train_loss, losses (self w') = losses (self w) ++ [train_loss]).
Proof.
  unfold train_epoch. intros H.
  apply bind_Err in H as [H | (? & w1 & H1 & H)]; [discriminate|].
  apply update_self_run in H1 as [_ ?]; subst w1.
  apply bind_Err in H as [H2 | (tl & w2 & H2 & H)];
    apply _mini_batch_configuration in H2 as C2;
    unfold configuration in C2; simpl in C2;
    injection C2 as _ _ _ _ L2 V2 T2.
  { rewrite T2, L2, V2. auto. }
  apply bind_Err in H as [H | (? & w3 & H3 & H)]; [discriminate|].
  apply update_self_run in H3 as [_ ?]; subst w3.
  apply bind_Err in H as [H4 | (vl & w4 & H4 & H)].
  - apply with_inference_mode_self in H4 as (w30 & w5 & E0 & H4 & E5).
    apply bind_Err in H4 as [H6 | (vl' & w6 & H6 & H4)].
    + apply _mini_batch_configuration in H6 as C6.
      unfold configuration in C6. rewrite E0 in C6. simpl in C6.
      injection C6 as _ _ _ _ L6 V6 T6.
      rewrite E5, T6, L6, V6, T2, L2, V2. eauto.
    + apply bind_Err in H4 as [H | (? & w7 & _ & H)]; discriminate.
  - destruct (emit_run tl vl epoch w4) as (w8 & E8 & _).
    rewrite E8 in H. discriminate.
Qed.

(** ** The epoch loop and [train] *)

Lemma epoch_loop_Ok l : forall w u w',
  epoch_loop l w = (Ok u, w') ->
  total_epochs (self w') = total_epochs (self w) + Z.of_nat (length l) /\
  exists tls vls,
    length tls = length l /\ length vls = length l /\
    losses (self w') = losses (self w) ++ tls /\
    val_losses (self w') = val_losses (self w) ++ vls.
Proof.
  unfold epoch_loop. induction l as [|epoch l IH]; intros w u w' H.
  - injection H as _ <-. split; [simpl; lia|].
    exists [], []. rewrite !app_nil_r. auto.
  - simpl in H. apply bind_Ok in H as ([] & w1 & H1 & H).
    apply train_epoch_Ok in H1 as (Ht & tl & vl & Hl & Hv).
    apply IH in H as (Ht' & tls & vls & Ltl & Lvl & Hl' & Hv').
    split; [rewrite Ht', Ht; simpl length; lia|].
    exists (tl :: tls), (vl :: vls).
    rewrite Hl', Hv', Hl, Hv, <- !app_assoc. simpl. auto.
Qed.

(** When the loop raises, [k] epochs were completed before the one that
    failed. *)
Lemma epoch_loop_Err l : forall w e w',
  epoch_loop l w = (Err e, w') ->
  exists (k : nat) tls vls,
    (k < length l)%nat /\
    total_epochs (self w') = total_epochs (self w) + Z.of_nat k + 1 /\
    losses (self w') = losses (self w) ++ tls /\
    val_losses (self w') = val_losses (self w) ++ vls /\
    length vls = k /\
    (length tls = k \/ length tls = S k).
Proof.
  unfold epoch_loop. induction l as [|epoch l IH]; intros w e w' H.
  - discriminate.
  - simpl in H. apply bind_Err in H as [H1 | ([] & w1 & H1 & H)].
    + apply train_epoch_Err in H1 as (Ht & Hv & Hl).
      exists 0%nat. destruct Hl as [Hl | [tl Hl]].
      * exists [], []. rewrite !app_nil_r. simpl. repeat split; auto; lia.
      * exists [tl], []. rewrite !app_nil_r. simpl. repeat split; auto; lia.
    + apply train_epoch_Ok in H1 as (Ht & tl & vl & Hl & Hv).
      apply IH in H as (k & tls & vls & Hk & Ht' & Hl' & Hv' & Lv & Lt).
      exists (S k), (tl :: tls), (vl :: vls).
      rewrite Hl', Hv', Hl, Hv, Ht', Ht, <- !app_assoc. simpl.
      repeat split; auto; lia.
Qed.

Lemma length_range n : length (range n) = Z.to_nat n.
Proof. unfold range. rewrite length_map, length_seq. reflexivity. Qed.

(** [train] is the loop between a seeding and a flush, neither of which
    touches the training state. *)
Lemma train_unfold n seed w :
  train n seed w =
  match epoch_loop (range n)
          {| self := self w; env := with_seeds seed (env w) |} with
  | (Ok _, w1) =>
      (Ok tt,
       {| self := with_writer (flush <$> writer (self w1)) (self w1);
          env := env w1 |})
  | (Err e, w1) => (Err e, w1)
  end.
Proof.
  unfold train, epoch_loop, set_seed, update_env, mbind, M_bind. simpl.
  destruct (for_in _ _ _ _) as [[u|e] w1]; [|reflexivity].
  unfold get_self. destruct w1 as [s1 e1]. simpl.
  destruct s1 as [? ? ? ? ? ? ? [wr|] ? ? ? ?]; reflexivity.
Qed.

Lemma train_Ok n seed w u w' :
  train n seed w = (Ok u, w') ->
  total_epochs (self w') = total_epochs (self w) + Z.max 0 n /\
  exists tls vls,
    length tls = Z.to_nat n /\ length vls = Z.to_nat n /\
    losses (self w') = losses (self w) ++ tls /\
    val_losses (self w') = val_losses (self w) ++ vls.
Proof.
  rewrite train_unfold.
  destruct (epoch_loop _ _) as [[u1|e] w1] eqn:E; [|discriminate].
  intros H; injection H as _ <-.
  apply epoch_loop_Ok in E as (Ht & tls & vls & Lt & Lv & Hl & Hv).
  rewrite length_range in *. simpl in Ht, Hl, Hv. simpl. split; [lia|].
  exists tls, vls. auto.
Qed.

Lemma train_Err n seed w e w' :
  train n seed w = (Err e, w') ->
  exists (k : nat) tls vls,
    (k < Z.to_nat n)%nat /\
    total_epochs (self w') = total_epochs (self w) + Z.of_nat k + 1 /\
    losses (self w') = losses (self w) ++ tls /\
    val_losses (self w') = val_losses (self w) ++ vls /\
    length vls = k /\
    (length tls = k \/ length tls = S k).
Proof.
  rewrite train_unfold.
  destruct (epoch_loop _ _) as [[u1|e1] w1] eqn:E; [discriminate|].
  intros [= <- <-]. apply epoch_loop_Err in E. rewrite length_range in E.
  exact E.
Qed.

Lemma train_series_Ok calls : forall w u w',
  train_series calls w = (Ok u, w') ->
  total_epochs (self w') = total_epochs (self w) + epochs_requested calls /\
  exists tls vls,
    Z.of_nat (length tls) = epochs_requested calls /\
    Z.of_nat (length vls) = epochs_requested calls /\
    losses (self w') = losses (self w) ++ tls /\
    val_losses (self w') = val_losses (self w) ++ vls.
Proof.
  unfold train_series. induction calls as [|[n seed] calls IH]; intros w u w' H.
  - injection H as _ <-. split; [simpl; lia|].
    exists [], []. rewrite !app_nil_r. auto.
  - simpl in H. apply bind_Ok in H as ([] & w1 & H1 & H).
    apply train_Ok in H1 as (Ht & tls1 & vls1 & Lt1 & Lv1 & Hl1 & Hv1).
    apply IH in H as (Ht' & tls & vls & Lt & Lv & Hl & Hv).
    simpl. split; [lia|].
    exists (tls1 ++ tls), (vls1 ++ vls).
    rewrite Hl, Hv, Hl1, Hv1, <- !app_assoc, !length_app. 
    repeat split; lia.
Qed.

(** C1. After any series of [train] calls that all return, started on a
    session whose training state is the constructor's ([total_epochs = 0],
    both histories empty), [len(losses) == len(val_losses) ==
    total_epochs], and [total_epochs] is the sum of the epochs asked for:
    [train(2)] followed by [train(3)] gives 5. *)
Theorem train_series_in_step calls w w' :
  total_epochs (self w) = 0 ->
  losses (self w) = [] ->
  val_losses (self w) = [] ->
  train_series calls w = (Ok tt, w') ->
  Z.of_nat (length (losses (self w'))) = total_epochs (self w') /\
  Z.of_nat (length (val_losses (self w'))) = total_epochs (self w') /\
  total_epochs (self w') = epochs_requested calls.
Proof.
  intros Ht Hl Hv H.
  apply train_series_Ok in H as (Ht' & tls & vls & Lt & Lv & Hl' & Hv').
  rewrite Ht', Hl', Hv', Ht, Hl, Hv. simpl. lia.
Qed.

Lemma for_in_app {A L : Type} (l1 l2 : list A) (body : L -> A -> M L) :
  forall acc w,
    for_in (l1 ++ l2) acc body w =
    (acc' ← for_in l1 acc body; for_in l2 acc' body) w.
Proof.
  induction l1 as [|a l1 IH]; intros acc w; cbn [app for_in].
  - reflexivity.
  - unfold mbind, M_bind.
    destruct (body acc a w) as [[acc'|e] w1]; [|reflexivity].
    rewrite IH. reflexivity.
Qed.

Lemma range_split n (k : nat) :
  (k < Z.to_nat n)%nat ->
  exists rest, range n = range (Z.of_nat k) ++ Z.of_nat k :: rest.
Proof.
  intros Hk. unfold range. rewrite Nat2Z.id.
  replace (Z.to_nat n) with (k + S (Z.to_nat n - S k))%nat by lia.
  rewrite seq_app, map_app. cbn [seq map]. eauto.
Qed.

(** When [k] epochs have completed and the next one raises, [train]
    raises what it raised, in the state it left. *)
Lemma train_raises_at_epoch n seed (k : nat) w w0 e w' :
  (k < Z.to_nat n)%nat ->
  epoch_loop (range (Z.of_nat k))
    {| self := self w; env := with_seeds seed (env w) |} = (Ok tt, w0) ->
  train_epoch (Z.of_nat k) w0 = (Err e, w') ->
  train n seed w = (Err e, w').
Proof.
  intros Hk Hloop He. rewrite train_unfold.
  destruct (range_split n k Hk) as [rest ->].
  unfold epoch_loop in *. rewrite for_in_app.
  rewrite (bind_run _ _ _ _ _ Hloop). cbn [for_in].
  rewrite (bind_fail _ _ _ _ _ He). reflexivity.
Qed.

(** C3, as the code has it.  Take a [train] on a session whose training
    state is in step, with a seed and scalars the library accepts, and let
    [k] epochs have completed.  If the training pass of the next epoch
    raises, [train] raises the same: the failed epoch has been counted, so
    [total_epochs] is one more than [len(val_losses)], and neither history
    has an entry for it.  If its training pass returns and its validation
    pass raises, [train] raises the same: the failed epoch has been counted,
    [val_losses] has no entry for it, and [losses] has its training loss. *)
Theorem train_raise_state n seed (k : nat) w w0 :
  in_step (self w) ->
  seed_accepted seed ->
  scalars_accepted (self w) ->
  (k < Z.to_nat n)%nat ->
  epoch_loop (range (Z.of_nat k))
    {| self := self w; env := with_seeds seed (env w) |} = (Ok tt, w0) ->
  let w1 :=
    {| self := with_total_epochs (total_epochs (self w0) + 1) (self w0);
       env := env w0 |} in
  (in_step (self w0) /\
   length (val_losses (self w0)) = (length (val_losses (self w)) + k)%nat) /\
  (forall e w',
     _mini_batch false w1 = (Err e, w') ->
     train n seed w = (Err e, w') /\
     losses (self w') = losses (self w0) /\
     val_losses (self w') = val_losses (self w0) /\
     total_epochs (self w') = Z.of_nat (length (val_losses (self w'))) + 1 /\
     length (losses (self w')) = length (val_losses (self w'))) /\
  (forall train_loss w2 e w3,
     _mini_batch false w1 = (Ok train_loss, w2) ->
     _mini_batch true
       {| self := with_losses (losses (self w2) ++ [train_loss]) (self w2);
          env := with_autograd false true (env w2) |} = (Err e, w3) ->
     exists w',
       train n seed w = (Err e, w') /\
       losses (self w') = losses (self w0) ++ [train_loss] /\
       val_losses (self w') = val_losses (self w0) /\
       total_epochs (self w') = Z.of_nat (length (val_losses (self w'))) + 1 /\
       length (losses (self w')) = S (length (val_losses (self w')))).
Proof.
  intros [Ht Hlv] _ _ Hk Hloop w1.
  apply epoch_loop_Ok in Hloop as Hw0.
  destruct Hw0 as (Ht0 & tls & vls & Lt & Lv & Hl0 & Hv0).
  rewrite length_range, Nat2Z.id in Lt, Lv, Ht0. cbn [self] in Ht0, Hl0, Hv0.
  assert (Hin0 : in_step (self w0) /\
            length (val_losses (self w0)) =
              (length (val_losses (self w)) + k)%nat).
  { unfold in_step. rewrite Ht0, Hl0, Hv0, !length_app, Ht. lia. }
  destruct Hin0 as [[Ht0' Hlv0] Hlen0].
  split; [split; [split|]; assumption|]. split.
  - intros e w' Hp.
    apply _mini_batch_configuration in Hp as C.
    unfold configuration in C. cbn in C. injection C as _ _ _ _ Hl Hv Hn.
    split.
    + apply (train_raises_at_epoch n seed k w w0); [exact Hk | exact Hloop|].
      unfold train_epoch. erewrite bind_run by reflexivity.
      apply bind_fail. exact Hp.
    + rewrite Hl, Hv, Hn. repeat split; lia.
  - intros tl w2 e w3 Hp Hval.
    apply _mini_batch_configuration in Hp as C.
    unfold configuration in C. cbn in C. injection C as _ _ _ _ Hl Hv Hn.
    apply _mini_batch_configuration in Hval as C'.
    unfold configuration in C'. cbn in C'.
    injection C' as _ _ _ _ Hl' Hv' Hn'.
    eexists. split.
    + apply (train_raises_at_epoch n seed k w w0); [exact Hk | exact Hloop|].
      unfold train_epoch. erewrite bind_run by reflexivity.
      erewrite bind_run by exact Hp.
      erewrite bind_run by reflexivity.
      apply bind_fail. unfold with_inference_mode. cbn [self env].
      erewrite bind_fail by exact Hval. reflexivity.
    + cbn [self]. rewrite Hl', Hv', Hn', Hl, Hv, Hn, length_app. cbn [length].
      repeat split; lia.
Qed.

(** ** What the writer receives *)

Lemma emit_bound tl vl epoch w wr :
  writer (self w) = Some wr ->
  emit tl vl epoch w =
  (Ok tt,
   {| self :=
        with_writer (Some (add_scalars wr "loss" (scalars_emitted tl vl) epoch))
                    (self w);
      env := env w |}).
Proof.
  intros H. unfold emit, mbind, M_bind, get_self. rewrite H.
  unfold scalars_emitted. destruct (truthy vl); reflexivity.
Qed.

(** One [add_scalars] per completed epoch, tagged by the loop index, with
    the training loss, and with the validation loss when it is truthy. *)
Lemma epoch_loop_emissions l : forall w wr u w',
  writer (self w) = Some wr ->
  epoch_loop l w = (Ok u, w') ->
  exists tls vls,
    length tls = length l /\ length vls = length l /\
    losses (self w') = losses (self w) ++ tls /\
    val_losses (self w') = val_losses (self w) ++ vls /\
    writer (self w') =
      Some {| log_dir := log_dir wr;
              events := events wr ++ emissions l tls vls |}.
Proof.
  unfold epoch_loop. induction l as [|epoch l IH]; intros w wr u w' Hw H.
  - injection H as _ <-. exists [], []. rewrite !app_nil_r, Hw.
    destruct wr; auto.
  - simpl in H. apply bind_Ok in H as ([] & w1 & H1 & H).
    apply train_epoch_passes in H1 as (tl & vl & w4 & _ & Hl & Hv & Hw4 & H1).
    rewrite Hw in Hw4. rewrite (emit_bound _ _ _ _ _ Hw4) in H1.
    injection H1 as ?; subst w1.
    eapply IH in H as (tls & vls & Lt & Lv & Hl' & Hv' & Hw');
      [|reflexivity].
    exists (tl :: tls), (vl :: vls). simpl in Hl', Hv', Hw'.
    rewrite Hl', Hv', Hw', Hl, Hv, <- !app_assoc. simpl.
    repeat split; auto.
Qed.

(** With a writer bound, a [train] that returns has emitted once per epoch
    and flushed once, at the end. *)
Lemma train_emissions n seed w wr u w' :
  writer (self w) = Some wr ->
  train n seed w = (Ok u, w') ->
  exists tls vls,
    length tls = Z.to_nat n /\ length vls = Z.to_nat n /\
    losses (self w') = losses (self w) ++ tls /\
    val_losses (self w') = val_losses (self w) ++ vls /\
    writer (self w') =
      Some {| log_dir := log_dir wr;
              events := events wr ++ emissions (range n) tls vls ++ [Flush] |}.
Proof.
  intros Hw. rewrite train_unfold.
  destruct (epoch_loop _ _) as [[u1|e] w1] eqn:E; [|discriminate].
  intros H; injection H as _ <-.
  eapply epoch_loop_emissions in E as (tls & vls & Lt & Lv & Hl & Hv & Hw1);
    [|exact Hw].
  rewrite length_range in *. exists tls, vls. simpl in Hl, Hv. simpl.
  rewrite Hw1. unfold flush. simpl. rewrite <- app_assoc. auto.
Qed.

(** ** One pass over a data source *)

Lemma self_device_run w :
  self_device w =
  match device (self w) with
  | Some d => (Ok d, w)
  | None => (Err (AttributeError "device"), w)
  end.
Proof.
  unfold self_device, mbind, M_bind, get_self.
  destruct (device (self w)); reflexivity.
Qed.

(** The loop body, run: both tensors are moved, then the step is taken. *)
Lemma batch_body_run step acc b d w :
  device (self w) = Some d ->
  batch_body step acc b w =
  match tensor_to b.1 d with
  | Ok x =>
      match tensor_to b.2 d with
      | Ok y =>
          match step x y w with
          | (Ok l, w1) => (Ok (PrimFloat.add acc l), w1)
          | (Err e, w1) => (Err e, w1)
          end
      | Err e => (Err e, w)
      end
  | Err e => (Err e, w)
  end.
Proof.
  intros Hd. unfold batch_body, mbind, M_bind, lift.
  rewrite self_device_run, Hd.
  destruct (tensor_to b.1 d); [|reflexivity].
  rewrite self_device_run, Hd.
  destruct (tensor_to b.2 d); [|reflexivity].
  destruct (step _ _ w) as [[l|e] w1]; reflexivity.
Qed.

Lemma batch_body_unbound step acc b w :
  device (self w) = None ->
  batch_body step acc b w = (Err (AttributeError "device"), w).
Proof.
  intros Hd. unfold batch_body. apply bind_fail.
  rewrite self_device_run, Hd. reflexivity.
Qed.

Lemma steps_run_length step d bs w ls w' :
  steps_run step d bs w ls w' -> length ls = length bs.
Proof. induction 1; simpl; congruence. Qed.

(** The loop returns exactly when every batch, in order, was moved and
    stepped on; what it returns is the running sum of the steps' losses. *)
Lemma for_in_batches step d :
  (forall x y, keeps device (step x y)) ->
  forall bs acc w r w',
    device (self w) = Some d ->
    for_in bs acc (batch_body step) w = (Ok r, w') <->
    exists ls, steps_run step d bs w ls w' /\
               r = fold_left PrimFloat.add ls acc.
Proof.
  intros Hstep. induction bs as [|b bs IH]; intros acc w r w' Hd; simpl.
  - split.
    + intros [= <- <-]. exists []. split; [constructor | reflexivity].
    + intros (ls & Hrun & ->). inversion Hrun; subst. reflexivity.
  - rewrite bind_Ok. split.
    + intros (acc' & w1 & Hb & Hrest).
      rewrite (batch_body_run _ _ _ d) in Hb by exact Hd.
      destruct (tensor_to b.1 d) as [x|] eqn:Ex; [|discriminate].
      destruct (tensor_to b.2 d) as [y|] eqn:Ey; [|discriminate].
      destruct (step x y w) as [[l|] w1'] eqn:Es; [|discriminate].
      injection Hb as <- <-.
      assert (Hd1 : device (self w1') = Some d)
        by (rewrite (Hstep _ _ _ _ _ Es); exact Hd).
      apply (IH _ _ _ _ Hd1) in Hrest as (ls & Hrun & ->).
      exists (l :: ls). split; [econstructor; eassumption | reflexivity].
    + intros (ls & Hrun & ->). inversion Hrun as [|? ? x y ? l w1 ls' ? Ex Ey Es Hrun']; subst.
      assert (Hd1 : device (self w1) = Some d)
        by (rewrite (Hstep _ _ _ _ _ Es); exact Hd).
      exists (PrimFloat.add acc l), w1. split.
      * rewrite (batch_body_run _ _ _ d) by exact Hd. rewrite Ex, Ey, Es.
        reflexivity.
      * apply (IH _ _ _ _ Hd1). exists ls'. split; [exact Hrun' | reflexivity].
Qed.

Lemma step_keeps_device (validation : bool) x y :
  keeps device ((if validation then val_step else train_step) x y).
Proof.
  intros w r w' H.
  assert (C : configuration (self w') = configuration (self w)).
  { destruct validation;
      [exact (val_step_configuration _ _ _ _ _ H)
      | exact (train_step_configuration _ _ _ _ _ H)]. }
  unfold configuration in C. congruence.
Qed.

(** C5. On a bound, non-empty data source [_mini_batch] returns exactly when
    every batch, once and in the source's order, was moved to the device and
    given to the selected step function, and it then returns the unweighted
    mean of the losses of those steps: their sum over the number of
    batches. *)
Theorem _mini_batch_mean (validation : bool) w batches d v w' :
  (if validation then val_loader (self w) else train_loader (self w))
    = Some batches ->
  batches <> [] ->
  device (self w) = Some d ->
  _mini_batch validation w = (Ok v, w') <->
  exists ls,
    steps_run (if validation then val_step else train_step) d batches w ls w'
    /\ length ls = length batches
    /\ v = Some (mean ls).
Proof.
  intros Hl Hne Hd. unfold _mini_batch.
  rewrite bind_Ok. split.
  - intros (s & w1 & [= <- <-] & H). rewrite Hl in H.
    apply bind_Ok in H as (acc & w2 & Hloop & H).
    apply (for_in_batches _ d (step_keeps_device validation)) in Hloop
      as (ls & Hrun & ->); [|exact Hd].
    pose proof (steps_run_length _ _ _ _ _ _ Hrun) as Hlen.
    assert (H' : v = Some (mean ls) /\ w' = w2).
    { destruct batches as [|b bs]; [contradiction|].
      unfold mbind, M_bind, lift, py_truediv in H. simpl in H.
      injection H as <- <-. unfold mean. rewrite Hlen. auto. }
    destruct H' as [-> ->]. exists ls. auto.
  - intros (ls & Hrun & Hlen & ->).
    exists (self w), w. split; [reflexivity|]. rewrite Hl.
    apply bind_Ok. exists (fold_left PrimFloat.add ls 0%float), w'. split.
    + apply (for_in_batches _ d (step_keeps_device validation)); [exact Hd|].
      exists ls. split; [exact Hrun | reflexivity].
    + destruct batches as [|b bs]; [contradiction|].
      unfold mbind, M_bind, lift, py_truediv, mean. rewrite Hlen. reflexivity.
Qed.

(** A [train] of at least one epoch raises what the first training pass
    raises. *)
Lemma train_raises_in_first_pass n seed w e w1 :
  0 < n ->
  _mini_batch false
    {| self := with_total_epochs (total_epochs (self w) + 1) (self w);
       env := with_seeds seed (env w) |} = (Err e, w1) ->
  train n seed w = (Err e, w1).
Proof.
  intros Hn Hmb. rewrite train_unfold. unfold range, epoch_loop.
  destruct (Z.to_nat n) as [|k] eqn:Ek; [lia|].
  cbn [seq map for_in].
  erewrite (bind_fail (train_epoch _)); [reflexivity|].
  unfold train_epoch. erewrite bind_run by reflexivity.
  apply bind_fail. exact Hmb.
Qed.

(** C9. On a bound training source of zero batches, [_mini_batch] raises
    [ZeroDivisionError], and so does every [train] of at least one epoch. *)
Theorem empty_source_division_by_zero w n seed :
  train_loader (self w) = Some [] ->
  0 < n ->
  _mini_batch false w = (Err ZeroDivisionError, w) /\
  exists w', train n seed w = (Err ZeroDivisionError, w').
Proof.
  intros Hl Hn.
  assert (Hmb : forall w0, train_loader (self w0) = Some [] ->
                           _mini_batch false w0 = (Err ZeroDivisionError, w0)).
  { intros w0 H0. unfold _mini_batch, mbind, M_bind, get_self.
    rewrite H0. reflexivity. }
  split; [exact (Hmb w Hl)|].
  eexists. apply train_raises_in_first_pass; [exact Hn|].
  apply Hmb. exact Hl.
Qed.

(** ** Without a validation source *)

Lemma autograd_restore g i e :
  with_autograd (grad_enabled e) (inference e) (with_autograd g i e) = e.
Proof. destruct e; reflexivity. Qed.

Lemma _mini_batch_unbound w :
  val_loader (self w) = None -> _mini_batch true w = (Ok None, w).
Proof.
  intros H. unfold _mini_batch, mbind, M_bind, get_self. rewrite H.
  reflexivity.
Qed.

Lemma train_epoch_no_val_eq epoch w :
  val_loader (self w) = None ->
  train_epoch epoch w = train_epoch_no_val epoch w.
Proof.
  intros Hv. unfold train_epoch, train_epoch_no_val.
  unfold mbind, M_bind, update_self. cbn [self env].
  destruct (_mini_batch false _) as [[tl|e] w2] eqn:E2; [|reflexivity].
  apply _mini_batch_configuration in E2 as C2.
  unfold configuration in C2. simpl in C2. injection C2 as _ Hv2 _ _ _ _ _.
  rewrite Hv in Hv2.
  unfold with_inference_mode. cbn [self env].
  rewrite _mini_batch_unbound by exact Hv2.
  unfold mret, M_ret. cbn [self env].
  rewrite autograd_restore. reflexivity.
Qed.

Lemma train_epoch_no_val_Ok epoch w u w' :
  train_epoch_no_val epoch w = (Ok u, w') ->
  val_loader (self w') = val_loader (self w) /\
  val_losses (self w') = val_losses (self w) ++ [None].
Proof.
  unfold train_epoch_no_val. intros H.
  apply bind_Ok in H as (? & w1 & H1 & H).
  apply update_self_run in H1 as [_ ?]; subst w1.
  apply bind_Ok in H as (tl & w2 & H2 & H).
  apply _mini_batch_configuration in H2 as C2.
  unfold configuration in C2. simpl in C2. injection C2 as _ Hv2 _ _ _ Hl2 _.
  apply bind_Ok in H as (? & w3 & H3 & H).
  apply update_self_run in H3 as [_ ?]; subst w3.
  apply bind_Ok in H as (? & w4 & H4 & H).
  apply update_self_run in H4 as [_ ?]; subst w4.
  destruct (emit_run tl None epoch
              {| self := with_val_losses (val_losses
                   (self {| self := with_losses (losses (self w2) ++ [tl]) (self w2);
                            env := env w2 |}) ++ [None])
                   (self {| self := with_losses (losses (self w2) ++ [tl]) (self w2);
                            env := env w2 |});
                 env := env {| self := with_losses (losses (self w2) ++ [tl]) (self w2);
                               env := env w2 |} |})
    as (w5 & E5 & F).
  rewrite E5 in H. injection H as _ <-.
  destruct F as (_ & _ & _ & -> & _ & _ & -> & _). simpl.
  rewrite Hl2, Hv2. auto.
Qed.

Lemma epoch_loop_no_val l : forall w,
  val_loader (self w) = None ->
  epoch_loop l w = for_in l tt (fun _ epoch => train_epoch_no_val epoch) w /\
  forall u w', epoch_loop l w = (Ok u, w') ->
    val_losses (self w') = val_losses (self w) ++ replicate (length l) None.
Proof.
  unfold epoch_loop. induction l as [|epoch l IH]; intros w Hv.
  - split; [reflexivity|]. intros u w' [= _ <-]. simpl.
    rewrite app_nil_r. reflexivity.
  - cbn [for_in]. unfold mbind, M_bind.
    rewrite (train_epoch_no_val_eq _ _ Hv).
    destruct (train_epoch_no_val epoch w) as [[[]|e] w1] eqn:E1.
    + apply train_epoch_no_val_Ok in E1 as [Hv1 Hl1]. rewrite Hv in Hv1.
      destruct (IH w1 Hv1) as [IH1 IH2]. split; [exact IH1|].
      intros u w' H. rewrite (IH2 _ _ H), Hl1, <- app_assoc. reflexivity.
    + split; [reflexivity | discriminate].
Qed.

(** C4. With no validation source bound, the validation pass returns
    [None] and leaves everything as it was; [train] is then the loop that
    runs the training pass of every epoch and appends [None] to
    [val_losses]; after [train(n)] the validation history has gained [n]
    entries, all [None], and the training history [n] entries. *)
Theorem no_validation_source n seed w :
  val_loader (self w) = None ->
  _mini_batch true w = (Ok None, w) /\
  train n seed w = train_no_val n seed w /\
  forall w', train n seed w = (Ok tt, w') ->
    val_losses (self w') = val_losses (self w) ++ replicate (Z.to_nat n) None /\
    length (losses (self w')) = (length (losses (self w)) + Z.to_nat n)%nat.
Proof.
  intros Hv. split; [exact (_mini_batch_unbound w Hv)|].
  pose (w0 := {| self := self w; env := with_seeds seed (env w) |}).
  destruct (epoch_loop_no_val (range n) w0 Hv) as [Heq Hval].
  split.
  - unfold train, train_no_val.
    erewrite !(bind_run (set_seed seed)) by reflexivity.
    fold w0. unfold mbind at 1 3. unfold M_bind at 1 3.
    unfold epoch_loop in Heq. rewrite Heq. reflexivity.
  - intros w' H. apply train_Ok in H as Hh.
    destruct Hh as (_ & tls & vls & Lt & _ & Hl & _).
    rewrite train_unfold in H. fold w0 in H.
    destruct (epoch_loop (range n) w0) as [[u1|e] w1] eqn:E; [|discriminate].
    injection H as <-. specialize (Hval u1 w1 eq_refl).
    rewrite length_range in Hval.
    simpl in Hl. simpl. split; [exact Hval|].
    rewrite Hl, length_app, Lt. reflexivity.
Qed.

(** ** Inference *)

(** [predict], run. *)
Lemma predict_run x w :
  predict x w =
  let s := with_model (with_training false (model (self w))) (self w) in
  match device (self w) with
  | None => (Err (AttributeError "device"), {| self := s; env := env w |})
  | Some d =>
      match tensor_to x d with
      | Err e => (Err e, {| self := s; env := env w |})
      | Ok x' =>
          match forward (state_dict (model (self w))) false false x' with
          | Err e => (Err e, {| self := s; env := env w |})
          | Ok r =>
              (Ok r.1,
               {| self := with_model (with_state_dict r.2 (model s)) s;
                  env := env w |})
          end
      end
  end.
Proof.
  unfold predict, model_eval. erewrite bind_run by reflexivity.
  unfold with_inference_mode, mbind, M_bind. cbn [self env].
  rewrite self_device_run. cbn [self env device with_model].
  destruct (device (self w)) as [d|]; [|cbn [self env]; rewrite autograd_restore; reflexivity].
  unfold lift. destruct (tensor_to x d) as [x'|e];
    [|cbn [self env]; rewrite autograd_restore; reflexivity].
  unfold model_call, mbind, M_bind, get_self, get_env, lift, update_self.
  cbn [self env model state_dict training with_model with_training
       grad_enabled with_autograd].
  destruct (forward _ _ _ _) as [r|e]; unfold mret, M_ret; cbn [self env];
    rewrite autograd_restore; reflexivity.
Qed.

Lemma predict_leaves_eval x w :
  training (model (self (predict x w).2)) = false.
Proof.
  rewrite predict_run. cbn zeta.
  destruct (device (self w)) as [d|]; [|reflexivity].
  destruct (tensor_to x d); [|reflexivity].
  destruct (forward _ _ _ _); reflexivity.
Qed.

(** C8. With the device bound, [predict(x)] puts the model in evaluation
    mode, moves [x] to the device, calls the model with the mode flag off
    and gradient tracking off, and returns what the model returned,
    untouched; the autograd mode is as before.  Whatever happens, and so
    also after any [train], the model is not left in training mode. *)
Theorem predict_raw_output_in_eval_mode x w d x' y sd :
  device (self w) = Some d ->
  tensor_to x d = Ok x' ->
  forward (state_dict (model (self w))) false false x' = Ok (y, sd) ->
  (exists w', predict x w = (Ok y, w') /\
     training (model (self w')) = false /\
     state_dict (model (self w')) = sd /\
     env w' = env w) /\
  (forall x0 w0, training (model (self (predict x0 w0).2)) = false) /\
  (forall x0 n seed,
     training (model (self (predict x0 (train n seed w).2).2)) = false).
Proof.
  intros Hd Hx Hf. split; [|split].
  - rewrite predict_run, Hd, Hx, Hf. cbn. eauto.
  - intros x0 w0. apply predict_leaves_eval.
  - intros x0 n seed. apply predict_leaves_eval.
Qed.

(** ** Binding the device *)


(** ** Checkpoints *)

(** C2. [save_model(path)] on one session followed by [load_model(path)] on
    a session of the same architecture returns, and replaces the loader's
    [total_epochs], [losses] and [val_losses], whatever they were, by the
    saver's, and its model and optimizer state by the saver's; bound to the
    same device, [predict(x)] then gives what it gives on the saver. *)
Theorem checkpoint_round_trip path eval_mode s1 e1 s2 x :
  sd_compatible (state_dict (model s2)) (state_dict (model s1)) = true ->
  opt_compatible (optimizer s2) (optimizer s1) = true ->
  device s2 = device s1 ->
  let saved := (save_model path {| self := s1; env := e1 |}).2 in
  exists w2,
    load_model path eval_mode {| self := s2; env := env saved |} = (Ok tt, w2) /\
    total_epochs (self w2) = total_epochs s1 /\
    losses (self w2) = losses s1 /\
    val_losses (self w2) = val_losses s1 /\
    state_dict (model (self w2)) = state_dict (model s1) /\
    optimizer (self w2) = optimizer s1 /\
    (predict x w2).1 = (predict x {| self := s1; env := e1 |}).1.
Proof.
  intros Hsd Hopt Hdev saved. subst saved.
  unfold save_model, torch_save, load_model, torch_load, load_state_dict,
    opt_load_state_dict, model_eval, model_train, mbind, M_bind, update_self,
    update_env, get_self, get_env, lift. cbn.
  rewrite lookup_insert_eq. cbn. rewrite Hsd. cbn. rewrite Hopt. cbn.
  destruct eval_mode; (eexists; split; [reflexivity|]);
    cbn; repeat (split; [reflexivity|]);
    rewrite !predict_run; cbn; rewrite Hdev;
    destruct (device s1) as [d|]; try reflexivity;
    destruct (tensor_to x d); try reflexivity;
    destruct (forward _ _ _ _); reflexivity.
Qed.

(** ** Who assigns [self.device] *)

Lemma _mini_batch_device validation : keeps device (_mini_batch validation).
Proof.
  intros w r w' H. apply _mini_batch_configuration in H.
  unfold configuration in H. congruence.
Qed.

Lemma emit_device tl vl epoch : keeps device (emit tl vl epoch).
Proof.
  unfold emit. keeps_step; [keeps_step|]. destruct (writer _); keeps_step.
Qed.

Lemma train_epoch_device epoch : keeps device (train_epoch epoch).
Proof.
  unfold train_epoch.
  repeat (first [apply _mini_batch_device | apply emit_device | keeps_step]).
Qed.

Lemma train_device n seed : keeps device (train n seed).
Proof.
  unfold train, set_seed. keeps_step; [keeps_step|].
  keeps_step; [keeps_step; apply train_epoch_device|].
  keeps_step; [keeps_step|]. destruct (writer _); keeps_step.
Qed.

Lemma predict_device x : keeps device (predict x).
Proof.
  unfold predict, model_eval, model_call.
  repeat (first [apply self_device_keeps | keeps_step]).
Qed.

Lemma save_model_device path : keeps device (save_model path).
Proof. unfold save_model, torch_save. repeat keeps_step. Qed.

Lemma load_model_device path eval_mode :
  keeps device (load_model path eval_mode).
Proof.
  unfold load_model, torch_load, load_state_dict, model_eval, model_train.
  keeps_step.
  { keeps_step; [keeps_step|]. destruct (_ !! _); keeps_step. }
  keeps_step.
  { keeps_step; [keeps_step|]. destruct (sd_compatible _ _);
      repeat keeps_step. }
  repeat keeps_step. destruct eval_mode; keeps_step.
Qed.

Lemma set_tensorboard_device name dir :
  keeps device (set_tensorboard name dir).
Proof. unfold set_tensorboard. repeat keeps_step. Qed.

Lemma to_assigns_device d w :
  exists d', device (self (to d w).2) = Some d'.
Proof.
  unfold to, try_except_RuntimeError, model_to, mbind, M_bind, update_self,
    get_self, get_env, lift, logger_warning, update_env. cbn.
  destruct (module_to _ d) as [sd|[]]; cbn; eauto.
  repeat (rewrite self_device_run; cbn).
  destruct (module_to _ _); cbn; eauto.
Qed.

(** C10, as the code has it.  The constructor does not assign
    [self.device]; [to] does, and no other method touches it.  While it is
    unassigned every [predict] raises [AttributeError], whatever else the
    session has or lacks, and so does every [train] of at least one epoch,
    with a seed the library accepts, on a bound training source of at least
    one batch: at the first batch. *)
Theorem device_unassigned_until_to w x :
  device (self w) = None ->
  (forall m o f g, device (__init__ m o f g) = None) /\
  (exists w', predict x w = (Err (AttributeError "device"), w')) /\
  (forall n seed b bs,
     seed_accepted seed ->
     train_loader (self w) = Some (b :: bs) ->
     0 < n ->
     exists w', train n seed w = (Err (AttributeError "device"), w')) /\
  (forall d w0, exists d', device (self (to d w0).2) = Some d') /\
  (forall tl vl, keeps device (set_loaders tl vl)) /\
  (forall name dir, keeps device (set_tensorboard name dir)) /\
  (forall n0 seed0, keeps device (train n0 seed0)) /\
  (forall x0, keeps device (predict x0)) /\
  (forall path, keeps device (save_model path)) /\
  (forall path eval_mode, keeps device (load_model path eval_mode)).
Proof.
  intros Hd. split; [reflexivity|]. split; [|split].
  - rewrite predict_run, Hd. cbn. eauto.
  - intros n seed b bs _ Hl Hn.
    eexists. apply train_raises_in_first_pass; [exact Hn|].
    unfold _mini_batch, mbind, M_bind, get_self. cbn. rewrite Hl. cbn.
    erewrite (bind_fail (batch_body _ _ _)); [reflexivity|].
    apply batch_body_unbound. exact Hd.
  - split; [exact to_assigns_device|].
    split; [intros; unfold set_loaders; keeps_step|].
    split; [exact set_tensorboard_device|].
    split; [exact train_device|].
    split; [exact predict_device|].
    split; [exact save_model_device | exact load_model_device].
Qed.

(** * Further properties of the methods *)

(** ** What a method leaves alone *)

Lemma run_pair {A : Type} (c : M A) w : c w = ((c w).1, (c w).2).
Proof. destruct (c w); reflexivity. Qed.

Lemma keeps_snd {A X : Type} (g : Session -> X) (c : M A) w :
  keeps g c -> g (self (c w).2) = g (self w).
Proof. intros H. exact (H _ _ _ (run_pair c w)). Qed.

Lemma keeps_try_except {A X : Type} (g : Session -> X) (body handler : M A) :
  keeps g body -> keeps g handler ->
  keeps g (try_except_RuntimeError body handler).
Proof.
  intros Hb Hh w r w'. unfold try_except_RuntimeError.
  destruct (body w) as [[a|e] w1] eqn:E.
  - intros [= _ <-]. exact (Hb _ _ _ E).
  - destruct e; try (intros [= _ <-]; exact (Hb _ _ _ E)).
    intros H. rewrite (Hh _ _ _ H). exact (Hb _ _ _ E).
Qed.

Section EnvStable.

Lemma env_stable_ret {A : Type} (a : A) : env_stable (mret a).
Proof. intros w r w' [= _ <-]. reflexivity. Qed.

Lemma env_stable_raise {A : Type} (e : Exn) : env_stable (raise e : M A).
Proof. intros w r w' [= _ <-]. reflexivity. Qed.

Lemma env_stable_lift {A : Type} (r : Result A) : env_stable (lift r).
Proof. intros w r' w' [= _ <-]. reflexivity. Qed.

Lemma env_stable_get_self : env_stable get_self.
Proof. intros w r w' [= _ <-]. reflexivity. Qed.

Lemma env_stable_get_env : env_stable get_env.
Proof. intros w r w' [= _ <-]. reflexivity. Qed.

Lemma env_stable_update_self (f : Session -> Session) :
  env_stable (update_self f).
Proof. intros w r w' [= _ <-]. reflexivity. Qed.

Lemma env_stable_bind {A B : Type} (c : M A) (k : A -> M B) :
  env_stable c -> (forall a, env_stable (k a)) -> env_stable (c ≫= k).
Proof.
  intros Hc Hk w r w'. unfold mbind, M_bind.
  destruct (c w) as [[a|e] w1] eqn:E.
  - intros H. rewrite (Hk _ _ _ _ H). exact (Hc _ _ _ E).
  - intros [= _ <-]. exact (Hc _ _ _ E).
Qed.

Lemma env_stable_for_in {A L : Type} (l : list A) (body : L -> A -> M L) :
  (forall acc a, env_stable (body acc a)) ->
  forall acc, env_stable (for_in l acc body).
Proof.
  intros Hb. induction l as [|a l IH]; intros acc; simpl.
  - apply env_stable_ret.
  - apply env_stable_bind; [apply Hb | intros acc'; apply IH].
Qed.

(** The context managers put the autograd mode back, also on the way out
    of an exception. *)
Lemma env_stable_with_no_grad {A : Type} (c : M A) :
  env_stable c -> env_stable (with_no_grad c).
Proof.
  intros Hc w r w'. unfold with_no_grad.
  destruct (c _) as [r1 w1] eqn:E. intros [= _ <-].
  apply Hc in E. cbn [env] in *. rewrite E.
  destruct (env w); reflexivity.
Qed.

Lemma env_stable_with_inference_mode {A : Type} (c : M A) :
  env_stable c -> env_stable (with_inference_mode c).
Proof.
  intros Hc w r w'. unfold with_inference_mode.
  destruct (c _) as [r1 w1] eqn:E. intros [= _ <-].
  apply Hc in E. cbn [env] in *. rewrite E.
  destruct (env w); reflexivity.
Qed.

End EnvStable.

Ltac env_step :=
  first
    [ apply env_stable_bind; [| intros ?]
    | apply env_stable_ret | apply env_stable_raise | apply env_stable_lift
    | apply env_stable_get_self | apply env_stable_get_env
    | apply env_stable_update_self
    | apply env_stable_with_no_grad | apply env_stable_with_inference_mode
    | apply env_stable_for_in; intros ? ? ].

Lemma env_stable_snd {A : Type} (c : M A) w :
  env_stable c -> env (c w).2 = env w.
Proof. intros H. exact (H _ _ _ (run_pair c w)). Qed.

Lemma self_device_env : env_stable self_device.
Proof.
  unfold self_device. env_step; [env_step|]. destruct (device _); env_step.
Qed.

Lemma train_step_env x y : env_stable (train_step x y).
Proof.
  unfold train_step, model_train, optimizer_zero_grad, model_call,
    loss_backward, optimizer_step.
  repeat env_step.
Qed.

Lemma val_step_env x y : env_stable (val_step x y).
Proof. unfold val_step, model_eval, model_call. repeat env_step. Qed.

Lemma _mini_batch_env validation : env_stable (_mini_batch validation).
Proof.
  unfold _mini_batch. env_step; [env_step|].
  destruct (if validation then _ else _); [|env_step].
  env_step; [| repeat env_step].
  env_step. unfold batch_body.
  repeat (first [apply self_device_env | env_step]).
  destruct validation; [apply val_step_env | apply train_step_env].
Qed.

Lemma emit_env tl vl epoch : env_stable (emit tl vl epoch).
Proof.
  unfold emit. env_step; [env_step|]. destruct (writer _); env_step.
Qed.

Lemma train_epoch_env epoch : env_stable (train_epoch epoch).
Proof.
  unfold train_epoch.
  repeat (first [apply _mini_batch_env | apply emit_env | env_step]).
Qed.

Lemma epoch_loop_env l : env_stable (epoch_loop l).
Proof. unfold epoch_loop. env_step. apply train_epoch_env. Qed.

(** X1. Whether [train] returns or raises, with a seed the library
    accepts, the process is seeded as [set_seed] seeds it (both generators
    with the seed, cudnn deterministic and not benchmarking), the autograd
    mode is the one before the call, and nothing was logged. *)
Theorem train_only_seeds_the_process n seed w :
  seed_accepted seed ->
  let e := env (train n seed w).2 in
  grad_enabled e = grad_enabled (env w) /\
  inference e = inference (env w) /\
  warnings e = warnings (env w) /\
  manual_seed e = Some seed /\
  cuda_manual_seed e = Some seed /\
  cudnn_deterministic e = true /\
  cudnn_benchmark e = false.
Proof.
  intros _ e.
  assert (E : e = with_seeds seed (env w)).
  { subst e. rewrite train_unfold.
    destruct (epoch_loop _ _) as [[u|e] w1] eqn:E;
      apply epoch_loop_env in E; exact E. }
  rewrite E. cbn. repeat split.
Qed.

(** X2. [predict] touches the model and nothing else, whether it returns or
    raises: the process state, the loaders, the writer, the device, the
    histories, the optimizer and the gradients are what they were. *)
Theorem predict_touches_model_only x w :
  env (predict x w).2 = env w /\
  configuration (self (predict x w).2) = configuration (self w) /\
  optimizer (self (predict x w).2) = optimizer (self w) /\
  grads (model (self (predict x w).2)) = grads (model (self w)).
Proof.
  rewrite predict_run. cbn zeta.
  destruct (device (self w)) as [d|] eqn:Hd.
  - destruct (tensor_to x d).
    + destruct (forward _ _ _ _); unfold configuration; cbn; rewrite Hd; auto.
    + unfold configuration; cbn; rewrite Hd; auto.
  - unfold configuration; cbn; rewrite Hd; auto.
Qed.

Lemma val_step_optimizer x y :
  keeps (fun s => (optimizer s, grads (model s))) (val_step x y).
Proof. unfold val_step, model_eval, model_call. repeat keeps_step. Qed.

(** X3. The validation pass never steps the optimizer and never touches
    the gradients: whether it returns or raises, the optimizer state, the
    gradients, the rest of the configuration and the process state are what
    they were. *)
Theorem validation_pass_is_read_only w :
  optimizer (self (_mini_batch true w).2) = optimizer (self w) /\
  grads (model (self (_mini_batch true w).2)) = grads (model (self w)) /\
  configuration (self (_mini_batch true w).2) = configuration (self w) /\
  env (_mini_batch true w).2 = env w.
Proof.
  assert (K : keeps (fun s => (optimizer s, grads (model s)))
                (_mini_batch true)).
  { unfold _mini_batch. keeps_step; [keeps_step|].
    destruct (val_loader _); [|keeps_step].
    keeps_step; [| repeat keeps_step].
    keeps_step. unfold batch_body.
    repeat (first [apply self_device_keeps | apply val_step_optimizer
                  | keeps_step]). }
  pose proof (keeps_snd _ _ w K) as E. injection E as Ho Hg.
  repeat split; [exact Ho | exact Hg | |].
  - apply keeps_snd, _mini_batch_configuration.
  - apply env_stable_snd, _mini_batch_env.
Qed.

Lemma to_history d : keeps history (to d).
Proof.
  unfold to, model_to, logger_warning.
  apply keeps_try_except;
    repeat (first [apply self_device_keeps | keeps_step]).
Qed.

Lemma add_grap_history : keeps history add_grap.
Proof.
  unfold add_grap, logger_warning. keeps_step; [keeps_step|].
  destruct (train_loader _) as [[|b bs]|]; [| |repeat keeps_step];
    (destruct (writer _); [|keeps_step]);
    repeat (first [apply self_device_keeps | keeps_step]).
Qed.

(** X4. The configuration calls, [predict], [save_model] and [add_grap]
    never touch the training state: [total_epochs], [losses] and
    [val_losses] are what they were, also when the call raises. *)
Theorem training_state_untouched_by_other_methods :
  (forall d, keeps history (to d)) /\
  (forall seed, keeps history (set_seed seed)) /\
  (forall tl vl, keeps history (set_loaders tl vl)) /\
  (forall name dir, keeps history (set_tensorboard name dir)) /\
  (forall x, keeps history (predict x)) /\
  (forall path, keeps history (save_model path)) /\
  keeps history add_grap.
Proof.
  split; [exact to_history|].
  split; [intros; unfold set_seed; keeps_step|].
  split; [intros; unfold set_loaders; keeps_step|].
  split; [intros; unfold set_tensorboard; repeat keeps_step|].
  split.
  { intros x. unfold predict, model_eval, model_call.
    repeat (first [apply self_device_keeps | keeps_step]). }
  split; [intros; unfold save_model, torch_save; repeat keeps_step|].
  exact add_grap_history.
Qed.

(** ** More on [train] *)

(** X5. [train] only appends: whether it returns or raises, the entries the
    histories had are still there, in place, and [total_epochs] has not gone
    down. *)
Theorem train_appends_to_histories n seed w :
  exists tls vls,
    losses (self (train n seed w).2) = losses (self w) ++ tls /\
    val_losses (self (train n seed w).2) = val_losses (self w) ++ vls /\
    total_epochs (self w) <= total_epochs (self (train n seed w).2).
Proof.
  destruct (train n seed w) as [[[]|e] w'] eqn:E; cbn [snd].
  - apply train_Ok in E as (Ht & tls & vls & _ & _ & Hl & Hv).
    exists tls, vls. repeat split; [exact Hl | exact Hv | lia].
  - apply train_Err in E as (k & tls & vls & _ & Ht & Hl & Hv & _).
    exists tls, vls. repeat split; [exact Hl | exact Hv | lia].
Qed.

(** X6. [train(n)] with [n <= 0] and a seed the library accepts runs no
    epoch and returns, whatever the session lacks: it seeds, flushes the
    writer if there is one, and leaves the model, the optimizer and the
    training state alone. *)
Theorem train_no_epochs n seed w :
  n <= 0 ->
  seed_accepted seed ->
  train n seed w =
  (Ok tt,
   {| self := with_writer (flush <$> writer (self w)) (self w);
      env := with_seeds seed (env w) |}).
Proof.
  intros Hn _. rewrite train_unfold. unfold range.
  replace (Z.to_nat n) with 0%nat by lia. reflexivity.
Qed.

Lemma _mini_batch_no_source (validation : bool) w :
  (if validation then val_loader (self w) else train_loader (self w)) = None ->
  _mini_batch validation w = (Ok None, w).
Proof.
  intros H. unfold _mini_batch, mbind, M_bind, get_self. rewrite H.
  reflexivity.
Qed.

Lemma emit_unbound tl vl epoch w :
  writer (self w) = None -> emit tl vl epoch w = (Ok tt, w).
Proof.
  intros H. unfold emit, mbind, M_bind, get_self. rewrite H. reflexivity.
Qed.

(** An epoch on a session with no source and no writer. *)
Lemma train_epoch_no_sources epoch w :
  train_loader (self w) = None ->
  val_loader (self w) = None ->
  writer (self w) = None ->
  train_epoch epoch w =
  (Ok tt,
   {| self :=
        with_val_losses (val_losses (self w) ++ [None])
          (with_losses (losses (self w) ++ [None])
             (with_total_epochs (total_epochs (self w) + 1) (self w)));
      env := env w |}).
Proof.
  intros Ht Hv Hw. rewrite (train_epoch_no_val_eq _ _ Hv).
  unfold train_epoch_no_val.
  erewrite bind_run by reflexivity.
  erewrite bind_run by (apply (_mini_batch_no_source false); exact Ht).
  erewrite bind_run by reflexivity.
  erewrite bind_run by reflexivity.
  rewrite emit_unbound by exact Hw. reflexivity.
Qed.

Lemma epoch_loop_no_sources l : forall w,
  train_loader (self w) = None ->
  val_loader (self w) = None ->
  writer (self w) = None ->
  exists w', epoch_loop l w = (Ok tt, w') /\
    model (self w') = model (self w) /\
    optimizer (self w') = optimizer (self w) /\
    writer (self w') = None /\
    losses (self w') = losses (self w) ++ replicate (length l) None /\
    val_losses (self w') = val_losses (self w) ++ replicate (length l) None /\
    total_epochs (self w') = total_epochs (self w) + Z.of_nat (length l).
Proof.
  unfold epoch_loop. induction l as [|epoch l IH]; intros w Ht Hv Hw.
  - exists w. cbn. rewrite !app_nil_r. repeat split; auto; lia.
  - pose proof (train_epoch_no_sources epoch w Ht Hv Hw) as E1.
    match type of E1 with _ = (_, ?w1) =>
      destruct (IH w1 Ht Hv Hw) as (w' & E & Hm' & Ho' & Hw' & Hl' & Hvl' & Hn')
    end.
    exists w'. cbn [for_in]. rewrite (bind_run _ _ _ _ _ E1).
    split; [exact E|].
    rewrite Hm', Ho', Hw', Hl', Hvl', Hn'. cbn.
    rewrite <- !app_assoc. cbn. repeat split; lia.
Qed.

(** X7. On a session with no data source and no writer bound, as the
    constructor leaves it, [train(n)] with a seed the library accepts
    returns without an error and without touching the model or the
    optimizer, and records [None] as the loss of every epoch, in both
    histories. *)
Theorem train_without_sources n seed w :
  train_loader (self w) = None ->
  val_loader (self w) = None ->
  writer (self w) = None ->
  seed_accepted seed ->
  exists w', train n seed w = (Ok tt, w') /\
    model (self w') = model (self w) /\
    optimizer (self w') = optimizer (self w) /\
    writer (self w') = None /\
    losses (self w') = losses (self w) ++ replicate (Z.to_nat n) None /\
    val_losses (self w') =
      val_losses (self w) ++ replicate (Z.to_nat n) None /\
    total_epochs (self w') = total_epochs (self w) + Z.max 0 n.
Proof.
  intros Ht Hv Hw _. rewrite train_unfold.
  destruct (epoch_loop_no_sources (range n)
              {| self := self w; env := with_seeds seed (env w) |} Ht Hv Hw)
    as (w1 & E & Hm & Ho & Hw1 & Hl & Hvl & Hn).
  rewrite E. eexists. split; [reflexivity|].
  rewrite length_range in *. cbn in *.
  rewrite Hm, Ho, Hl, Hvl, Hn, Hw1. repeat split; lia.
Qed.

(** X8. A validation source that is bound but has no batches makes the
    first epoch raise [ZeroDivisionError] after its training pass: the
    training loss of that epoch is already in [losses] and the epoch is
    counted, [val_losses] has no entry for it. *)
Theorem empty_validation_source n seed w train_loss w2 :
  val_loader (self w) = Some [] ->
  0 < n ->
  _mini_batch false
    {| self := with_total_epochs (total_epochs (self w) + 1) (self w);
       env := with_seeds seed (env w) |} = (Ok train_loss, w2) ->
  exists w', train n seed w = (Err ZeroDivisionError, w') /\
    losses (self w') = losses (self w) ++ [train_loss] /\
    val_losses (self w') = val_losses (self w) /\
    total_epochs (self w') = total_epochs (self w) + 1 /\
    model (self w') = model (self w2).
Proof.
  intros Hv Hn Hp.
  apply _mini_batch_configuration in Hp as C.
  unfold configuration in C. cbn in C. injection C as _ Hv2 _ _ Hl2 Hvl2 Ht2.
  rewrite train_unfold. unfold range, epoch_loop.
  destruct (Z.to_nat n) as [|k] eqn:Ek; [lia|].
  cbn [seq map for_in].
  assert (E : exists w',
    train_epoch (Z.of_nat 0)
      {| self := self w; env := with_seeds seed (env w) |}
      = (Err ZeroDivisionError, w') /\
    self w' = with_losses (losses (self w2) ++ [train_loss]) (self w2)).
  { unfold train_epoch. erewrite bind_run by reflexivity.
    erewrite bind_run by exact Hp.
    erewrite bind_run by reflexivity.
    eexists. split.
    - apply bind_fail. unfold with_inference_mode. cbn [self env].
      erewrite bind_fail; [reflexivity|].
      unfold _mini_batch, mbind, M_bind, get_self. cbn.
      rewrite Hv2, Hv. reflexivity.
    - reflexivity. }
  destruct E as (w' & E & Hs). rewrite (bind_fail _ _ _ _ _ E).
  exists w'. split; [reflexivity|]. rewrite Hs. cbn.
  rewrite Hl2, Hvl2, Ht2. auto.
Qed.

(** ** The mode the model is left in *)

Lemma train_step_mode x y w r w' :
  train_step x y w = (r, w') -> training (model (self w')) = true.
Proof.
  unfold train_step, model_train. intros H.
  erewrite bind_run in H by reflexivity.
  assert (K : keeps (fun s => training (model s))
                (optimizer_zero_grad;;
                 yhat ← model_call x;
                 s ← get_self;
                 loss ← lift (train_loss_fn s yhat y);
                 loss_backward loss;; optimizer_step;; mret (item loss))).
  { unfold optimizer_zero_grad, model_call, loss_backward, optimizer_step.
    repeat keeps_step. }
  rewrite (K _ _ _ H). reflexivity.
Qed.

Lemma val_step_mode x y w r w' :
  val_step x y w = (r, w') -> training (model (self w')) = false.
Proof.
  unfold val_step, model_eval. intros H.
  erewrite bind_run in H by reflexivity.
  assert (K : keeps (fun s => training (model s))
                (with_no_grad
                   (yhat ← model_call x;
                    s ← get_self;
                    loss ← lift (val_loss_fn s yhat y);
                    mret (item loss)))).
  { unfold model_call. repeat keeps_step. }
  rewrite (K _ _ _ H). reflexivity.
Qed.

(** What every iteration of a loop that returned has established, the last
    one has established. *)
Lemma for_in_last {A L : Type} (I P : World -> Prop) (body : L -> A -> M L) :
  (forall acc a w acc' w',
     I w -> body acc a w = (Ok acc', w') -> I w' /\ P w') ->
  forall l a acc w r w',
    I w -> for_in (a :: l) acc body w = (Ok r, w') -> P w'.
Proof.
  intros Hb. induction l as [|a' l IH]; intros a acc w r w' HI H;
    cbn [for_in] in H; apply bind_Ok in H as (acc' & w1 & H1 & H);
    destruct (Hb _ _ _ _ _ HI H1) as [HI1 HP1].
  - injection H as _ <-. exact HP1.
  - exact (IH _ _ _ _ _ HI1 H).
Qed.

(** A pass over at least one batch that returns leaves the model in the
    mode of its step function. *)
Lemma _mini_batch_mode (validation : bool) w b bs v w' :
  (if validation then val_loader (self w) else train_loader (self w))
    = Some (b :: bs) ->
  _mini_batch validation w = (Ok v, w') ->
  training (model (self w')) = negb validation.
Proof.
  intros Hl H. unfold _mini_batch in H.
  apply bind_Ok in H as (s & w1 & [= <- <-] & H). rewrite Hl in H.
  apply bind_Ok in H as (acc & w2 & Hloop & H).
  apply bind_Ok in H as (r & w3 & [= _ <-] & [= _ <-]).
  apply (for_in_last (fun _ => True)
           (fun w0 => training (model (self w0)) = negb validation))
    in Hloop; [exact Hloop | | exact I].
  intros acc0 a w0 acc' w0' _ Hb. split; [exact I|].
  unfold batch_body in Hb.
  apply bind_Ok in Hb as (d & w4 & Hd & Hb).
  apply self_device_keeps with (g := fun s => s) in Hd as Hs.
  apply bind_Ok in Hb as (x & w5 & [= _ <-] & Hb).
  apply bind_Ok in Hb as (d' & w6 & Hd' & Hb).
  apply bind_Ok in Hb as (y & w7 & [= _ <-] & Hb).
  apply bind_Ok in Hb as (l & w8 & Hstep & [= _ <-]).
  destruct validation; cbn [negb];
    [exact (val_step_mode _ _ _ _ _ Hstep)
    | exact (train_step_mode _ _ _ _ _ Hstep)].
Qed.

(** An epoch that completes, taken apart: the two passes and what the rest
    of the body keeps. *)
Lemma train_epoch_inv epoch w u w' :
  train_epoch epoch w = (Ok u, w') ->
  exists tl w2 w3 vl w6,
    _mini_batch false
      {| self := with_total_epochs (total_epochs (self w) + 1) (self w);
         env := env w |} = (Ok tl, w2) /\
    self w3 = with_losses (losses (self w2) ++ [tl]) (self w2) /\
    _mini_batch true w3 = (Ok vl, w6) /\
    model (self w') = model (self w6) /\
    train_loader (self w') = train_loader (self w) /\
    val_loader (self w') = val_loader (self w).
Proof.
  unfold train_epoch. intros H.
  apply bind_Ok in H as (? & w1 & H1 & H).
  apply update_self_run in H1 as [_ ?]; subst w1.
  apply bind_Ok in H as (tl & w2 & H2 & H).
  apply _mini_batch_configuration in H2 as C2.
  apply bind_Ok in H as (? & w3 & H3 & H).
  apply update_self_run in H3 as [_ ?]; subst w3.
  apply bind_Ok in H as (vl & w4 & H4 & H).
  apply with_inference_mode_self in H4 as (w30 & w5 & E0 & H4 & E5).
  apply bind_Ok in H4 as (vl' & w6 & H6 & H4).
  apply _mini_batch_configuration in H6 as C6.
  apply bind_Ok in H4 as (? & w7 & H7 & H4).
  apply update_self_run in H7 as [_ ?]; subst w7.
  injection H4 as ? ?; subst vl' w5.
  destruct (emit_run tl vl epoch w4) as (w8 & E8 & F).
  rewrite E8 in H. injection H as _ <-.
  destruct F as (Hm & _ & Htl & Hvl & _).
  exists tl, w2, w30, vl, w6. split; [exact H2|]. split; [exact E0|].
  split; [exact H6|]. rewrite Hm, Htl, Hvl, E5. cbn.
  unfold configuration in C2, C6. rewrite E0 in C6. cbn in C2, C6.
  injection C2 as T2 V2 _ _ _ _ _. injection C6 as T6 V6 _ _ _ _ _.
  rewrite T6, V6, T2, V2. auto.
Qed.

Lemma train_epoch_mode epoch w u w' :
  train_epoch epoch w = (Ok u, w') ->
  (forall b bs, val_loader (self w) = Some (b :: bs) ->
     training (model (self w')) = false) /\
  (forall b bs, val_loader (self w) = None ->
     train_loader (self w) = Some (b :: bs) ->
     training (model (self w')) = true).
Proof.
  intros H.
  apply train_epoch_inv in H
    as (tl & w2 & w3 & vl & w6 & H2 & E3 & H6 & Hm & _ & _).
  apply _mini_batch_configuration in H2 as C2.
  unfold configuration in C2. cbn in C2. injection C2 as T2 V2 _ _ _ _ _.
  split.
  - intros b bs Hv. rewrite Hm.
    apply (_mini_batch_mode true w3 b bs vl); [|exact H6].
    cbn. rewrite E3. cbn. rewrite V2. exact Hv.
  - intros b bs Hv Ht. rewrite Hm.
    rewrite _mini_batch_no_source in H6
      by (cbn; rewrite E3; cbn; rewrite V2; exact Hv).
    injection H6 as _ <-. rewrite E3. cbn.
    refine (_mini_batch_mode false _ b bs tl _ _ H2).
    cbn. exact Ht.
Qed.

(** X9. After a [train] of at least one epoch that returns, the model is in
    evaluation mode when a validation source of at least one batch is
    bound; with no validation source and a training source of at least one
    batch, it is left in training mode. *)
Theorem mode_after_train n seed w w' :
  0 < n ->
  train n seed w = (Ok tt, w') ->
  (forall b bs, val_loader (self w) = Some (b :: bs) ->
     training (model (self w')) = false) /\
  (forall b bs, val_loader (self w) = None ->
     train_loader (self w) = Some (b :: bs) ->
     training (model (self w')) = true).
Proof.
  intros Hn H. rewrite train_unfold in H.
  destruct (epoch_loop _ _) as [[u1|e] w1] eqn:E; [|discriminate].
  injection H as <-. cbn [self model with_writer].
  unfold range, epoch_loop in E.
  destruct (Z.to_nat n) as [|k] eqn:Ek; [lia|]. cbn [seq map] in E.
  split.
  - intros b bs Hv.
    apply (for_in_last
             (fun w0 => val_loader (self w0) = Some (b :: bs))
             (fun w0 => training (model (self w0)) = false)) in E;
      [exact E | | exact Hv].
    intros [] epoch w0 acc' w0' Hv0 He. split.
    + apply train_epoch_inv in He
        as (? & ? & ? & ? & ? & _ & _ & _ & _ & _ & ->). exact Hv0.
    + exact (proj1 (train_epoch_mode _ _ _ _ He) b bs Hv0).
  - intros b bs Hv Ht.
    apply (for_in_last
             (fun w0 => val_loader (self w0) = None /\
                        train_loader (self w0) = Some (b :: bs))
             (fun w0 => training (model (self w0)) = true)) in E;
      [exact E | | split; [exact Hv | exact Ht]].
    intros [] epoch w0 acc' w0' [Hv0 Ht0] He. split.
    + apply train_epoch_inv in He
        as (? & ? & ? & ? & ? & _ & _ & _ & _ & -> & ->). auto.
    + exact (proj2 (train_epoch_mode _ _ _ _ He) b bs Hv0 Ht0).
Qed.

(** ** The writer over several calls *)

Lemma steps_of_app evs evs' :
  steps_of (evs ++ evs') = steps_of evs ++ steps_of evs'.
Proof. unfold steps_of. apply flat_map_app. Qed.

Lemma steps_of_emissions l : forall tls vls,
  length tls = length l -> length vls = length l ->
  steps_of (emissions l tls vls) = l.
Proof.
  induction l as [|epoch l IH]; intros [|tl tls] [|vl vls] Lt Lv;
    try discriminate; [reflexivity|].
  cbn. f_equal. apply IH; cbn in *; lia.
Qed.

Lemma length_emissions l : forall tls vls,
  length tls = length l -> length vls = length l ->
  length (emissions l tls vls) = length l.
Proof.
  induction l as [|epoch l IH]; intros [|tl tls] [|vl vls] Lt Lv;
    try discriminate; [reflexivity|].
  cbn. f_equal. apply IH; cbn in *; lia.
Qed.

Lemma train_loaders n seed :
  keeps (fun s => (train_loader s, val_loader s)) (train n seed).
Proof.
  assert (Kmb : forall v, keeps (fun s => (train_loader s, val_loader s))
                            (_mini_batch v)).
  { intros v w r w' H. apply _mini_batch_configuration in H.
    unfold configuration in H. congruence. }
  assert (Kem : forall tl vl epoch,
            keeps (fun s => (train_loader s, val_loader s))
              (emit tl vl epoch)).
  { intros tl vl epoch. unfold emit. keeps_step; [keeps_step|].
    destruct (writer _); keeps_step. }
  unfold train, set_seed. keeps_step; [keeps_step|].
  keeps_step.
  { keeps_step. unfold train_epoch.
    repeat (first [apply Kmb | apply Kem | keeps_step]). }
  keeps_step; [keeps_step|]. destruct (writer _); keeps_step.
Qed.

(** X10. With a writer bound, a [train] that returns has called
    [add_scalars] once per epoch, then [flush] once; the calls carry the
    losses that went into the histories, and their step tags are the loop
    indices [0 .. n-1] of this call, whatever [total_epochs] was. *)
Theorem train_emits_once_per_epoch n seed w wr w' :
  writer (self w) = Some wr ->
  train n seed w = (Ok tt, w') ->
  exists tls vls,
    losses (self w') = losses (self w) ++ tls /\
    val_losses (self w') = val_losses (self w) ++ vls /\
    writer (self w') =
      Some {| log_dir := log_dir wr;
              events := events wr ++ emissions (range n) tls vls ++ [Flush] |} /\
    length (emissions (range n) tls vls) = Z.to_nat n /\
    steps_of (emissions (range n) tls vls ++ [Flush]) = range n.
Proof.
  intros Hw H.
  apply (train_emissions _ _ _ _ _ _ Hw) in H
    as (tls & vls & Lt & Lv & Hl & Hv & Hw').
  exists tls, vls. split; [exact Hl|]. split; [exact Hv|].
  split; [exact Hw'|]. split.
  - rewrite length_emissions by (rewrite length_range; assumption).
    apply length_range.
  - rewrite steps_of_app, steps_of_emissions
      by (rewrite length_range; assumption).
    cbn. apply app_nil_r.
Qed.

(** X11. Over a series of [train] calls that all return, the step tags the
    writer receives start again at 0 with every call: they are the
    concatenation of [0 .. n-1] over the calls, not a count that goes on. *)
Theorem step_tags_restart_with_each_call calls : forall w wr w',
  writer (self w) = Some wr ->
  train_series calls w = (Ok tt, w') ->
  exists wr',
    writer (self w') = Some wr' /\
    log_dir wr' = log_dir wr /\
    steps_of (events wr') =
      steps_of (events wr) ++ flat_map (fun c => range c.1) calls.
Proof.
  unfold train_series.
  induction calls as [|[n seed] calls IH]; intros w wr w' Hw H.
  - injection H as <-. exists wr. cbn. rewrite app_nil_r. auto.
  - cbn [for_in] in H. apply bind_Ok in H as ([] & w1 & H1 & H).
    apply (train_emissions _ _ _ _ _ _ Hw) in H1
      as (tls & vls & Lt & Lv & _ & _ & Hw1).
    destruct (IH _ _ _ Hw1 H) as (wr' & Hw' & Hd & Hs).
    exists wr'. split; [exact Hw'|]. split; [exact Hd|].
    rewrite Hs. cbn [events flat_map fst].
    rewrite !steps_of_app, steps_of_emissions
      by (rewrite length_range; assumption).
    cbn. rewrite app_nil_r, <- !app_assoc. reflexivity.
Qed.

(** X12. [set_tensorboard] binds a new writer with nothing in it, in
    [log_dir/name_timestamp], whatever writer was bound: after
    [set_tensorboard] and a [train(n)] that returns, the writer holds the [n]
    emissions of that call and its flush, and nothing else. *)
Theorem set_tensorboard_starts_a_new_writer name dir n seed w w' :
  (set_tensorboard name dir;; train n seed) w = (Ok tt, w') ->
  exists tls vls,
    length tls = Z.to_nat n /\ length vls = Z.to_nat n /\
    writer (self w') =
      Some {| log_dir := dir +:+ "/" +:+ name +:+ "_" +:+ now (env w);
              events := emissions (range n) tls vls ++ [Flush] |}.
Proof.
  intros H. apply bind_Ok in H as ([] & w1 & H1 & H).
  unfold set_tensorboard, mbind, M_bind, get_env, update_self in H1.
  injection H1 as <-.
  eapply train_emissions in H as (tls & vls & Lt & Lv & _ & _ & Hw);
    [|reflexivity].
  exists tls, vls. auto.
Qed.

(** A [train] that returns on a session with no validation source. *)
Lemma train_no_val_entries n seed w u w' :
  val_loader (self w) = None ->
  train n seed w = (Ok u, w') ->
  val_losses (self w') = val_losses (self w) ++ replicate (Z.to_nat n) None.
Proof.
  intros Hv H. rewrite train_unfold in H.
  destruct (epoch_loop_no_val (range n)
              {| self := self w; env := with_seeds seed (env w) |} Hv)
    as [_ Hval].
  destruct (epoch_loop _ _) as [[u1|e] w1] eqn:E; [|discriminate].
  injection H as _ <-. specialize (Hval u1 w1 eq_refl).
  rewrite length_range in Hval. exact Hval.
Qed.

(** X13. [set_loaders(train_loader)], its second argument left at its
    default, unbinds a validation source bound before: a [train(n)] that
    returns after it appends [n] times [None] to [val_losses]. *)
Theorem set_loaders_default_unbinds_validation tl n seed w w' :
  (set_loaders tl None;; train n seed) w = (Ok tt, w') ->
  val_loader (self w') = None /\
  val_losses (self w') = val_losses (self w) ++ replicate (Z.to_nat n) None.
Proof.
  intros H. apply bind_Ok in H as ([] & w1 & H1 & H).
  unfold set_loaders, update_self in H1. injection H1 as <-.
  split.
  - apply train_loaders in H as K. cbn in K. congruence.
  - apply train_no_val_entries in H; [exact H | reflexivity].
Qed.

(** ** More on checkpoints *)

(** [load_model], run. *)
Lemma load_model_run path eval_mode w :
  load_model path eval_mode w =
  match files (env w) !! path with
  | None => (Err (FileNotFoundError path), w)
  | Some ck =>
      if sd_compatible (state_dict (model (self w))) (ck_model ck) then
        if opt_compatible (optimizer (self w)) (ck_optimizer ck) then
          (Ok tt, {| self := loaded ck eval_mode (self w); env := env w |})
        else
          (Err (ValueError "loaded state dict has a different number of parameter groups"),
           {| self := with_model
                        (with_state_dict (ck_model ck) (model (self w)))
                        (self w);
              env := env w |})
      else
        (Err (RuntimeError "Error(s) in loading state_dict"),
         {| self := with_model
                      (with_state_dict
                         (sd_rejected (state_dict (model (self w)))
                                      (ck_model ck))
                         (model (self w)))
                      (self w);
            env := env w |})
  end.
Proof.
  unfold load_model, torch_load, load_state_dict, opt_load_state_dict,
    model_eval, model_train, mbind, M_bind, update_self, get_self, get_env,
    lift, raise. cbn.
  destruct (files (env w) !! path) as [ck|]; [|reflexivity]. cbn.
  destruct (sd_compatible _ _); [|reflexivity]. cbn.
  destruct (opt_compatible _ _); [|reflexivity]. cbn.
  destruct eval_mode; reflexivity.
Qed.

(** X14. How [load_model] fails.  With no file at [path] it raises
    [FileNotFoundError] and nothing has changed.  When the model rejects the
    saved parameters it raises [RuntimeError]; the model then holds what the
    rejected load left in it, and the optimizer, the training state, the mode
    and the process state are the old ones.  When the model accepts them and
    the optimizer rejects its saved state it raises [ValueError] with the
    model's parameters already replaced, while the optimizer and the
    training state are still the old ones. *)
Theorem load_model_failures path eval_mode w :
  (files (env w) !! path = None ->
   load_model path eval_mode w = (Err (FileNotFoundError path), w)) /\
  (forall ck,
     files (env w) !! path = Some ck ->
     sd_compatible (state_dict (model (self w))) (ck_model ck) = false ->
     exists msg w',
       load_model path eval_mode w = (Err (RuntimeError msg), w') /\
       state_dict (model (self w')) =
         sd_rejected (state_dict (model (self w))) (ck_model ck) /\
       optimizer (self w') = optimizer (self w) /\
       history (self w') = history (self w) /\
       training (model (self w')) = training (model (self w)) /\
       env w' = env w) /\
  (forall ck,
     files (env w) !! path = Some ck ->
     sd_compatible (state_dict (model (self w))) (ck_model ck) = true ->
     opt_compatible (optimizer (self w)) (ck_optimizer ck) = false ->
     exists msg w',
       load_model path eval_mode w = (Err (ValueError msg), w') /\
       state_dict (model (self w')) = ck_model ck /\
       optimizer (self w') = optimizer (self w) /\
       history (self w') = history (self w) /\
       training (model (self w')) = training (model (self w))).
Proof.
  rewrite load_model_run. split; [|split].
  - intros ->. reflexivity.
  - intros ck -> ->. eexists _, _. split; [reflexivity|]. cbn.
    repeat split.
  - intros ck -> -> ->. eexists _, _. split; [reflexivity|]. cbn. auto.
Qed.

(** X15. A [load_model] of a checkpoint the model and the optimizer accept
    returns; it replaces the parameters, the optimizer state and the three
    fields of the training state by the checkpoint's and sets the mode
    (training unless [eval_mode]); the gradients, the loaders, the writer, the
    device and the process state are what they were. *)
Theorem load_model_replaces_state path eval_mode w ck :
  files (env w) !! path = Some ck ->
  sd_compatible (state_dict (model (self w))) (ck_model ck) = true ->
  opt_compatible (optimizer (self w)) (ck_optimizer ck) = true ->
  load_model path eval_mode w =
  (Ok tt, {| self := loaded ck eval_mode (self w); env := env w |}).
Proof. intros Hf Hs Ho. rewrite load_model_run, Hf, Hs, Ho. reflexivity. Qed.

(** X17. Training resumes from a loaded checkpoint: after a [load_model]
    and a [train(n)] that both return, [total_epochs] is the checkpoint's
    plus [n], and the histories are the checkpoint's followed by the [n] new
    entries; if the checkpoint's three fields were in step, the session's
    are. *)
Theorem resume_from_checkpoint path eval_mode n seed w ck w1 w2 :
  files (env w) !! path = Some ck ->
  load_model path eval_mode w = (Ok tt, w1) ->
  train n seed w1 = (Ok tt, w2) ->
  total_epochs (self w2) = ck_total_epochs ck + Z.max 0 n /\
  (exists tls vls,
     length tls = Z.to_nat n /\ length vls = Z.to_nat n /\
     losses (self w2) = ck_losses ck ++ tls /\
     val_losses (self w2) = ck_val_losses ck ++ vls) /\
  (ck_total_epochs ck = Z.of_nat (length (ck_losses ck)) ->
   length (ck_losses ck) = length (ck_val_losses ck) ->
   in_step (self w2)).
Proof.
  intros Hf Hload Htrain. rewrite load_model_run, Hf in Hload.
  destruct (sd_compatible _ _); [|discriminate].
  destruct (opt_compatible _ _); [|discriminate].
  injection Hload as <-.
  apply train_Ok in Htrain as (Ht & tls & vls & Lt & Lv & Hl & Hv).
  cbn in Ht, Hl, Hv. split; [exact Ht|]. split.
  - exists tls, vls. auto.
  - intros H1 H2. unfold in_step.
    rewrite Ht, Hl, Hv, !length_app, H1. split; lia.
Qed.

(** ** More on [to], [predict] and [add_grap] *)

(** X18. [to] assigns [self.device] before it moves the model: when the move
    raises anything but a [RuntimeError], [to] raises it, the session says
    it is on the requested device, and the model has not been moved; nothing
    is logged. *)
Theorem to_raises_with_device_assigned d w e :
  module_to (state_dict (model (self w))) d = Err e ->
  (forall msg, e <> RuntimeError msg) ->
  to d w = (Err e, {| self := with_device (Some d) (self w); env := env w |}).
Proof.
  intros Hm He.
  unfold to, try_except_RuntimeError, model_to, mbind, M_bind, update_self,
    get_self, lift. cbn. rewrite Hm.
  destruct e; try reflexivity. exfalso. exact (He _ eq_refl).
Qed.

(** X19. What [predict] returns or raises depends on the input, the model's
    parameters and the bound device only: not on the mode the model was in,
    nor on the autograd mode, the gradients, the optimizer or the
    histories. *)
Theorem predict_depends_on_parameters_and_device x w1 w2 :
  state_dict (model (self w1)) = state_dict (model (self w2)) ->
  device (self w1) = device (self w2) ->
  (predict x w1).1 = (predict x w2).1.
Proof.
  intros Hs Hd. rewrite !predict_run. cbn zeta. rewrite Hs, Hd.
  destruct (device (self w2)) as [d|]; [|reflexivity].
  destruct (tensor_to x d); [|reflexivity].
  destruct (forward _ _ _ _); reflexivity.
Qed.

(** X20. The ways [add_grap] ends without calling [add_graph].  With no
    training source it logs one warning and returns, also when there is no
    writer and no device; with a source and no writer it returns and nothing
    has changed; with a writer and a source of no batches it raises
    [StopIteration]; with a writer, a batch and no device bound it raises
    [AttributeError]. *)
Theorem add_grap_without_graph w :
  (train_loader (self w) = None ->
   add_grap w =
   (Ok None,
    {| self := self w;
       env := with_warnings
                (warnings (env w) ++
                 ["Train loader not found. Cannot add graph to tensorboard."])
                (env w) |})) /\
  (forall batches,
     train_loader (self w) = Some batches -> writer (self w) = None ->
     add_grap w = (Ok None, w)) /\
  (forall wr,
     train_loader (self w) = Some [] -> writer (self w) = Some wr ->
     add_grap w = (Err (OtherException "StopIteration"), w)) /\
  (forall wr b bs,
     train_loader (self w) = Some (b :: bs) -> writer (self w) = Some wr ->
     device (self w) = None ->
     add_grap w = (Err (AttributeError "device"), w)).
Proof.
  unfold add_grap, logger_warning, mbind, M_bind, get_self, update_env, raise.
  split; [|split; [|split]].
  - intros ->. reflexivity.
  - intros batches -> ->. reflexivity.
  - intros wr -> ->. reflexivity.
  - intros wr b bs -> -> Hd. cbn. rewrite self_device_run, Hd. reflexivity.
Qed.

End Properties.

(** * The session, run *)

Import Toy.


(** [train(2)] then [train(3)] on a configured fresh session. *)
Lemma train_series_in_step_witness :
  let w := ready (Some data) in
  let calls := [(2, 42); (3, 42)] in
  let w' := (train_series calls w).2 in
  total_epochs (self w) = 0 /\
  losses (self w) = [] /\
  val_losses (self w) = [] /\
  train_series calls w = (Ok tt, w') /\
  Z.of_nat (length (losses (self w'))) = total_epochs (self w') /\
  Z.of_nat (length (val_losses (self w'))) = total_epochs (self w') /\
  total_epochs (self w') = 5.
Proof.
  intros w calls w'.
  assert (H1 : total_epochs (self w) = 0) by reflexivity.
  assert (H2 : losses (self w) = []) by reflexivity.
  assert (H3 : val_losses (self w) = []) by reflexivity.
  assert (H4 : train_series calls w = (Ok tt, w')) by (vm_compute; reflexivity).
  exact (conj H1 (conj H2 (conj H3 (conj H4
           (train_series_in_step calls w w' H1 H2 H3 H4))))).
Defined.

(** A checkpoint of a trained session, loaded into a fresh one. *)
Lemma checkpoint_round_trip_witness :
  let s1 := self (train 2 42 (ready None)).2 in
  let s2 := self (after (to "cpu")) in
  let x := tensor [3%float] in
  sd_compatible (state_dict (model s2)) (state_dict (model s1)) = true /\
  opt_compatible (optimizer s2) (optimizer s1) = true /\
  device s2 = device s1 /\
  exists w2,
    load_model "model.pt" false
      {| self := s2;
         env := env (save_model "model.pt" {| self := s1; env := os |}).2 |}
      = (Ok tt, w2) /\
    total_epochs (self w2) = total_epochs s1 /\
    losses (self w2) = losses s1 /\
    val_losses (self w2) = val_losses s1 /\
    state_dict (model (self w2)) = state_dict (model s1) /\
    optimizer (self w2) = optimizer s1 /\
    (predict x w2).1 = (predict x {| self := s1; env := os |}).1.
Proof.
  intros s1 s2 x.
  assert (H1 : sd_compatible (state_dict (model s2)) (state_dict (model s1))
               = true) by reflexivity.
  assert (H2 : opt_compatible (optimizer s2) (optimizer s1) = true)
    by reflexivity.
  assert (H3 : device s2 = device s1) by (vm_compute; reflexivity).
  exact (conj H1 (conj H2 (conj H3
           (checkpoint_round_trip "model.pt" false s1 os s2 x H1 H2 H3)))).
Defined.

(** C3, the claim as stated fails.  When the loss function raises in the
    first training pass, [total_epochs] is 1 and no epoch was completed;
    when it raises in the first validation pass, [losses] has the entry of
    the epoch that failed as well. *)
Lemma train_raise_counts_failed_epoch :
  let r := train 2 42 bad_train in
  let r' := train 2 42 bad_val in
  (r.1 = Err (RuntimeError "shape mismatch") /\
   total_epochs (self r.2) = 1 /\
   losses (self r.2) = [] /\
   val_losses (self r.2) = [] /\
   ~ in_step (self r.2)) /\
  (r'.1 = Err (RuntimeError "shape mismatch") /\
   total_epochs (self r'.2) = 1 /\
   length (losses (self r'.2)) = 1%nat /\
   val_losses (self r'.2) = [] /\
   ~ in_step (self r'.2)).
Proof.
  intros r r'. split.
  - repeat split; try (vm_compute; reflexivity).
    intros [H _]. vm_compute in H. discriminate.
  - repeat split; try (vm_compute; reflexivity).
    intros [_ H]. vm_compute in H. discriminate.
Qed.

Lemma seed_42_accepted : seed_accepted 42.
Proof. unfold seed_accepted. lia. Qed.

(** A failure in the first validation pass: no epoch has completed. *)
Lemma train_raise_state_witness :
  let w := bad_val in
  let w0 := {| self := self w; env := with_seeds 42 (env w) |} in
  let w1 :=
    {| self := with_total_epochs (total_epochs (self w0) + 1) (self w0);
       env := env w0 |} in
  let r := _mini_batch false w1 in
  let train_loss := match r.1 with Ok v => v | Err _ => None end in
  let wv :=
    {| self := with_losses (losses (self r.2) ++ [train_loss]) (self r.2);
       env := with_autograd false true (env r.2) |} in
  let e := RuntimeError "shape mismatch" in
  in_step (self w) /\
  seed_accepted 42 /\
  scalars_accepted (self w) /\
  (0 < Z.to_nat 2)%nat /\
  epoch_loop (range (Z.of_nat 0)) w0 = (Ok tt, w0) /\
  r = (Ok train_loss, r.2) /\
  _mini_batch true wv = (Err e, (_mini_batch true wv).2) /\
  exists w',
    train 2 42 w = (Err e, w') /\
    losses (self w') = losses (self w0) ++ [train_loss] /\
    val_losses (self w') = val_losses (self w0) /\
    total_epochs (self w') = Z.of_nat (length (val_losses (self w'))) + 1 /\
    length (losses (self w')) = S (length (val_losses (self w'))).
Proof.
  intros w w0 w1 r train_loss wv e.
  assert (H1 : in_step (self w)) by (split; reflexivity).
  assert (H2 : seed_accepted 42) by exact seed_42_accepted.
  assert (H3 : scalars_accepted (self w)) by (left; reflexivity).
  assert (H4 : (0 < Z.to_nat 2)%nat) by (cbn; lia).
  assert (H5 : epoch_loop (range (Z.of_nat 0)) w0 = (Ok tt, w0))
    by reflexivity.
  assert (H6 : r = (Ok train_loss, r.2)) by (vm_compute; reflexivity).
  assert (H7 : _mini_batch true wv = (Err e, (_mini_batch true wv).2))
    by (vm_compute; reflexivity).
  pose proof (train_raise_state 2 42 0 w w0 H1 H2 H3 H4 H5) as P.
  cbv zeta in P. destruct P as (_ & _ & P).
  exact (conj H1 (conj H2 (conj H3 (conj H4 (conj H5 (conj H6 (conj H7
           (P train_loss r.2 e _ H6 H7)))))))).
Defined.

(** Two epochs without a validation source: the weight has moved. *)
Lemma no_validation_source_witness :
  let w := ready None in
  val_loader (self w) = None /\
  (_mini_batch true w = (Ok None, w) /\
   train 2 42 w = train_no_val 2 42 w /\
   forall w', train 2 42 w = (Ok tt, w') ->
     val_losses (self w') =
       val_losses (self w) ++ replicate (Z.to_nat 2) None /\
     length (losses (self w')) = (length (losses (self w)) + Z.to_nat 2)%nat) /\
  (train 2 42 w).1 = Ok tt /\
  val_losses (self (train 2 42 w).2) = [None; None] /\
  state_dict (model (self (train 2 42 w).2)) <> state_dict (model (self w)).
Proof.
  intros w.
  assert (H1 : val_loader (self w) = None) by reflexivity.
  split; [exact H1|]. split; [exact (no_validation_source 2 42 w H1)|].
  split; [vm_compute; reflexivity|]. split; [vm_compute; reflexivity|].
  intros H. apply (f_equal (fun f => PrimFloat.eqb f 0%float)) in H.
  vm_compute in H. discriminate.
Defined.

(** The training pass over the four batches. *)
Lemma _mini_batch_mean_witness :
  let w := ready None in
  let r := _mini_batch false w in
  let v := match r.1 with Ok v => v | Err _ => None end in
  train_loader (self w) = Some data /\
  data <> [] /\
  device (self w) = Some "cpu" /\
  r = (Ok v, r.2) /\
  exists ls,
    steps_run train_step "cpu" data w ls r.2 /\
    length ls = length data /\
    v = Some (mean ls).
Proof.
  intros w r v.
  assert (H1 : train_loader (self w) = Some data) by reflexivity.
  assert (H2 : data <> []) by discriminate.
  assert (H3 : device (self w) = Some "cpu") by reflexivity.
  assert (H4 : r = (Ok v, r.2)) by (vm_compute; reflexivity).
  exact (conj H1 (conj H2 (conj H3 (conj H4
    (proj1 (_mini_batch_mean false w data "cpu" v r.2 H1 H2 H3) H4))))).
Defined.

(** C6, the code at a validation loss of [0.0]: the validation pass ran
    and its result, [0.0], is in [val_losses], but the one emission of the
    epoch has the training loss only. *)
Theorem zero_validation_loss_not_emitted :
  let r := train 1 42 logged in
  r.1 = Ok tt /\
  val_losses (self r.2) = [Some 0%float] /\
  exists train_loss,
    losses (self r.2) = [train_loss] /\
    events <$> writer (self r.2) =
      Some [AddScalars "loss" [("loss/train", train_loss)] 0; Flush].
Proof.
  intros r. split; [vm_compute; reflexivity|].
  split; [vm_compute; reflexivity|].
  eexists. split; vm_compute; reflexivity.
Qed.



(** A prediction on the untrained model: [0 * 3]. *)
Lemma predict_raw_output_in_eval_mode_witness :
  let w := ready None in
  let x := tensor [3%float] in
  let y := {| values := [0%float]; grad_fn := 0%float |} in
  device (self w) = Some "cpu" /\
  tensor_to x "cpu" = Ok x /\
  forward (state_dict (model (self w))) false false x = Ok (y, 0%float) /\
  training (model (self w)) = true /\
  exists w', predict x w = (Ok y, w') /\
     training (model (self w')) = false /\
     state_dict (model (self w')) = 0%float /\
     env w' = env w.
Proof.
  intros w x y.
  assert (H1 : device (self w) = Some "cpu") by reflexivity.
  assert (H2 : tensor_to x "cpu" = Ok x) by reflexivity.
  assert (H3 : forward (state_dict (model (self w))) false false x
               = Ok (y, 0%float)) by reflexivity.
  split; [exact H1|]. split; [exact H2|]. split; [exact H3|].
  split; [reflexivity|].
  exact (proj1 (predict_raw_output_in_eval_mode x w "cpu" x y 0%float
                  H1 H2 H3)).
Defined.

(** A bound source of no batches. *)
Lemma empty_source_division_by_zero_witness :
  let w := empty_source in
  train_loader (self w) = Some [] /\
  0 < 1 /\
  _mini_batch false w = (Err ZeroDivisionError, w) /\
  exists w', train 1 42 w = (Err ZeroDivisionError, w').
Proof.
  intros w.
  assert (H1 : train_loader (self w) = Some []) by reflexivity.
  assert (H2 : 0 < 1) by lia.
  exact (conj H1 (conj H2 (empty_source_division_by_zero w 1 42 H1 H2))).
Defined.

(** C10, the claim as stated fails.  On a session fresh from the
    constructor, with no device and no loaders, [train(3)] returns: every
    pass finds its source unbound, and three [None] are appended to each
    history.  With a bound source of no batches [train] raises, but
    [ZeroDivisionError]. *)
Lemma train_without_device_can_return :
  device (self fresh) = None /\
  (train 3 42 fresh).1 = Ok tt /\
  losses (self (train 3 42 fresh).2) = [None; None; None] /\
  device (self (after (set_loaders [] None))) = None /\
  (train 3 42 (after (set_loaders [] None))).1 = Err ZeroDivisionError.
Proof. repeat split; vm_compute; reflexivity. Qed.

(** [predict] straight after the constructor; [train] with loaders bound
    and [to] never called. *)
Lemma device_unassigned_until_to_witness :
  let x := tensor [1%float] in
  device (self fresh) = None /\
  (exists w', predict x fresh = (Err (AttributeError "device"), w')) /\
  device (self no_device) = None /\
  seed_accepted 42 /\
  train_loader (self no_device) = Some (batch 1 2 :: tl data) /\
  0 < 1 /\
  (exists w', train 1 42 no_device = (Err (AttributeError "device"), w')).
Proof.
  intros x.
  assert (H0 : device (self fresh) = None) by reflexivity.
  assert (H1 : device (self no_device) = None) by reflexivity.
  assert (H2 : train_loader (self no_device) = Some (batch 1 2 :: tl data))
    by reflexivity.
  assert (H3 : 0 < 1) by lia.
  pose proof (device_unassigned_until_to fresh x H0) as (_ & Hp & _).
  pose proof (device_unassigned_until_to no_device x H1) as (_ & _ & Ht & _).
  exact (conj H0 (conj Hp (conj H1 (conj seed_42_accepted (conj H2 (conj H3
           (Ht 1 42 _ _ seed_42_accepted H2 H3))))))).
Defined.

(** ** Runs for the further properties *)

(** A [train] that raises in its first validation pass. *)
Lemma train_only_seeds_the_process_witness :
  seed_accepted 42 /\
  (train 2 42 bad_val).1 = Err (RuntimeError "shape mismatch") /\
  let e := env (train 2 42 bad_val).2 in
  grad_enabled e = grad_enabled (env bad_val) /\
  inference e = inference (env bad_val) /\
  warnings e = warnings (env bad_val) /\
  manual_seed e = Some 42 /\
  cuda_manual_seed e = Some 42 /\
  cudnn_deterministic e = true /\
  cudnn_benchmark e = false.
Proof.
  assert (H : (train 2 42 bad_val).1 = Err (RuntimeError "shape mismatch"))
    by (vm_compute; reflexivity).
  exact (conj seed_42_accepted (conj H
           (train_only_seeds_the_process 2 42 bad_val seed_42_accepted))).
Defined.

(** [train(-3)] on a session with no device. *)
Lemma train_no_epochs_witness :
  -3 <= 0 /\
  seed_accepted 42 /\
  train (-3) 42 no_device =
  (Ok tt,
   {| self := with_writer (flush <$> writer (self no_device)) (self no_device);
      env := with_seeds 42 (env no_device) |}).
Proof.
  assert (H : -3 <= 0) by lia.
  exact (conj H (conj seed_42_accepted
           (train_no_epochs (-3) 42 no_device H seed_42_accepted))).
Defined.

(** [train(3)] straight after the constructor. *)
Lemma train_without_sources_witness :
  train_loader (self fresh) = None /\
  val_loader (self fresh) = None /\
  writer (self fresh) = None /\
  seed_accepted 42 /\
  exists w', train 3 42 fresh = (Ok tt, w') /\
    model (self w') = model (self fresh) /\
    optimizer (self w') = optimizer (self fresh) /\
    writer (self w') = None /\
    losses (self w') = losses (self fresh) ++ replicate (Z.to_nat 3) None /\
    val_losses (self w') =
      val_losses (self fresh) ++ replicate (Z.to_nat 3) None /\
    total_epochs (self w') = total_epochs (self fresh) + Z.max 0 3.
Proof.
  assert (H1 : train_loader (self fresh) = None) by reflexivity.
  assert (H2 : val_loader (self fresh) = None) by reflexivity.
  assert (H3 : writer (self fresh) = None) by reflexivity.
  exact (conj H1 (conj H2 (conj H3 (conj seed_42_accepted
           (train_without_sources 3 42 fresh H1 H2 H3 seed_42_accepted))))).
Defined.

(** Four training batches, a validation source of none. *)
Lemma empty_validation_source_witness :
  let w := empty_val in
  let r := _mini_batch false
             {| self := with_total_epochs (total_epochs (self w) + 1) (self w);
                env := with_seeds 42 (env w) |} in
  let train_loss := match r.1 with Ok v => v | Err _ => None end in
  val_loader (self w) = Some [] /\
  0 < 2 /\
  r = (Ok train_loss, r.2) /\
  exists w', train 2 42 w = (Err ZeroDivisionError, w') /\
    losses (self w') = losses (self w) ++ [train_loss] /\
    val_losses (self w') = val_losses (self w) /\
    total_epochs (self w') = total_epochs (self w) + 1 /\
    model (self w') = model (self r.2).
Proof.
  intros w r train_loss.
  assert (H1 : val_loader (self w) = Some []) by reflexivity.
  assert (H2 : 0 < 2) by lia.
  assert (H3 : r = (Ok train_loss, r.2)) by (vm_compute; reflexivity).
  exact (conj H1 (conj H2 (conj H3
           (empty_validation_source 2 42 w train_loss r.2 H1 H2 H3)))).
Defined.

(** Two epochs with a validation source, two without. *)
Lemma mode_after_train_witness :
  let w := ready (Some data) in
  let w0 := ready None in
  (0 < 2 /\
   train 2 42 w = (Ok tt, (train 2 42 w).2) /\
   val_loader (self w) = Some (batch 1 2 :: tl data) /\
   training (model (self (train 2 42 w).2)) = false) /\
  (train 2 42 w0 = (Ok tt, (train 2 42 w0).2) /\
   val_loader (self w0) = None /\
   train_loader (self w0) = Some (batch 1 2 :: tl data) /\
   training (model (self (train 2 42 w0).2)) = true).
Proof.
  intros w w0.
  assert (H1 : 0 < 2) by lia.
  assert (H2 : train 2 42 w = (Ok tt, (train 2 42 w).2))
    by (vm_compute; reflexivity).
  assert (H3 : val_loader (self w) = Some (batch 1 2 :: tl data))
    by reflexivity.
  assert (H4 : train 2 42 w0 = (Ok tt, (train 2 42 w0).2))
    by (vm_compute; reflexivity).
  assert (H5 : val_loader (self w0) = None) by reflexivity.
  assert (H6 : train_loader (self w0) = Some (batch 1 2 :: tl data))
    by reflexivity.
  split.
  - exact (conj H1 (conj H2 (conj H3
             (proj1 (mode_after_train 2 42 w _ H1 H2) _ _ H3)))).
  - exact (conj H4 (conj H5 (conj H6
             (proj2 (mode_after_train 2 42 w0 _ H1 H4) _ _ H5 H6)))).
Defined.

(** Two epochs with a writer bound. *)
Lemma train_emits_once_per_epoch_witness :
  let w := logged in
  let wr := {| log_dir := "runs/run_20240101-120000"; events := [] |} in
  let w' := (train 2 42 w).2 in
  writer (self w) = Some wr /\
  train 2 42 w = (Ok tt, w') /\
  exists tls vls,
    losses (self w') = losses (self w) ++ tls /\
    val_losses (self w') = val_losses (self w) ++ vls /\
    writer (self w') =
      Some {| log_dir := log_dir wr;
              events := events wr ++ emissions (range 2) tls vls ++ [Flush] |} /\
    length (emissions (range 2) tls vls) = Z.to_nat 2 /\
    steps_of (emissions (range 2) tls vls ++ [Flush]) = range 2.
Proof.
  intros w wr w'.
  assert (H1 : writer (self w) = Some wr) by reflexivity.
  assert (H2 : train 2 42 w = (Ok tt, w')) by (vm_compute; reflexivity).
  exact (conj H1 (conj H2 (train_emits_once_per_epoch 2 42 w wr w' H1 H2))).
Defined.

(** [train(2)] then [train(1)]: the tags are 0, 1, 0. *)
Lemma step_tags_restart_with_each_call_witness :
  let w := logged in
  let wr := {| log_dir := "runs/run_20240101-120000"; events := [] |} in
  let calls := [(2, 42); (1, 7)] in
  let w' := (train_series calls w).2 in
  writer (self w) = Some wr /\
  train_series calls w = (Ok tt, w') /\
  exists wr',
    writer (self w') = Some wr' /\
    log_dir wr' = log_dir wr /\
    steps_of (events wr') = [0; 1; 0].
Proof.
  intros w wr calls w'.
  assert (H1 : writer (self w) = Some wr) by reflexivity.
  assert (H2 : train_series calls w = (Ok tt, w')) by (vm_compute; reflexivity).
  exact (conj H1 (conj H2
           (step_tags_restart_with_each_call calls w wr w' H1 H2))).
Defined.

(** A second [set_tensorboard] on a session that has a writer. *)
Lemma set_tensorboard_starts_a_new_writer_witness :
  let c := set_tensorboard "again" "logs";; train 1 42 in
  let w := (train 2 42 logged).2 in
  let w' := (c w).2 in
  c w = (Ok tt, w') /\
  exists tls vls,
    length tls = Z.to_nat 1 /\ length vls = Z.to_nat 1 /\
    writer (self w') =
      Some {| log_dir := "logs" +:+ "/" +:+ "again" +:+ "_" +:+ now (env w);
              events := emissions (range 1) tls vls ++ [Flush] |}.
Proof.
  intros c w w'.
  assert (H1 : c w = (Ok tt, w')) by (vm_compute; reflexivity).
  exact (conj H1
           (set_tensorboard_starts_a_new_writer "again" "logs" 1 42 w w' H1)).
Defined.

(** [set_loaders(data)] on a session that had a validation source. *)
Lemma set_loaders_default_unbinds_validation_witness :
  let c := set_loaders data None;; train 2 42 in
  let w := ready (Some data) in
  let w' := (c w).2 in
  val_loader (self w) = Some data /\
  c w = (Ok tt, w') /\
  val_loader (self w') = None /\
  val_losses (self w') = val_losses (self w) ++ replicate (Z.to_nat 2) None.
Proof.
  intros c w w'.
  assert (H1 : c w = (Ok tt, w')) by (vm_compute; reflexivity).
  exact (conj eq_refl (conj H1
           (set_loaders_default_unbinds_validation data 2 42 w w' H1))).
Defined.

(** A model of two weights and one parameter group, and checkpoints of
    three weights, and of two weights and two parameter groups. *)
Lemma load_model_failures_witness :
  let wide : @Checkpoint Shaped.torch :=
    {| ck_model := [1; 2; 3]%float : @StateDict Shaped.torch;
       ck_optimizer := 1%nat : @OptState Shaped.torch;
       ck_total_epochs := 4; ck_losses := []; ck_val_losses := [] |} in
  let grouped : @Checkpoint Shaped.torch :=
    {| ck_model := [5; 6]%float : @StateDict Shaped.torch;
       ck_optimizer := 2%nat : @OptState Shaped.torch;
       ck_total_epochs := 4; ck_losses := []; ck_val_losses := [] |} in
  let w : @World Shaped.torch :=
    {| self := Shaped.session [1; 2]%float 1;
       env := with_files {[ "wide.pt" := wide; "grouped.pt" := grouped ]}
                Shaped.os |} in
  load_model "none.pt" false w = (Err (FileNotFoundError "none.pt"), w) /\
  (exists msg w',
     load_model "wide.pt" false w = (Err (RuntimeError msg), w') /\
     state_dict (model (self w')) =
       sd_rejected (state_dict (model (self w))) (ck_model wide) /\
     optimizer (self w') = optimizer (self w) /\
     history (self w') = history (self w) /\
     training (model (self w')) = training (model (self w)) /\
     env w' = env w) /\
  (exists msg w',
     load_model "grouped.pt" false w = (Err (ValueError msg), w') /\
     state_dict (model (self w')) = ck_model grouped /\
     optimizer (self w') = optimizer (self w) /\
     history (self w') = history (self w) /\
     training (model (self w')) = training (model (self w))).
Proof.
  intros wide grouped w.
  pose proof (load_model_failures "none.pt" false w) as (H1 & _ & _).
  pose proof (load_model_failures "wide.pt" false w) as (_ & H2 & _).
  pose proof (load_model_failures "grouped.pt" false w) as (_ & _ & H3).
  split; [exact (H1 ltac:(vm_compute; reflexivity))|]. split.
  - exact (H2 wide ltac:(vm_compute; reflexivity) eq_refl).
  - exact (H3 grouped ltac:(vm_compute; reflexivity) eq_refl eq_refl).
Defined.

(** The checkpoint of a trained session, loaded in evaluation mode. *)
Lemma load_model_replaces_state_witness :
  let s1 := self (train 2 42 (ready None)).2 in
  let w := {| self := self (ready None);
              env := env (save_model "model.pt" {| self := s1; env := os |}).2 |} in
  files (env w) !! "model.pt" = Some (snapshot s1) /\
  sd_compatible (state_dict (model (self w))) (ck_model (snapshot s1)) = true /\
  opt_compatible (optimizer (self w)) (ck_optimizer (snapshot s1)) = true /\
  load_model "model.pt" true w =
  (Ok tt, {| self := loaded (snapshot s1) true (self w); env := env w |}).
Proof.
  intros s1 w.
  assert (H1 : files (env w) !! "model.pt" = Some (snapshot s1))
    by (vm_compute; reflexivity).
  assert (H2 : sd_compatible (state_dict (model (self w)))
                 (ck_model (snapshot s1)) = true) by reflexivity.
  assert (H3 : opt_compatible (optimizer (self w))
                 (ck_optimizer (snapshot s1)) = true) by reflexivity.
  exact (conj H1 (conj H2 (conj H3
           (load_model_replaces_state "model.pt" true w (snapshot s1)
              H1 H2 H3)))).
Defined.

(** Two epochs, a checkpoint, a load into a new session, one more epoch. *)
Lemma resume_from_checkpoint_witness :
  let s1 := self (train 2 42 (ready None)).2 in
  let ck := snapshot s1 in
  let w := {| self := self (ready None);
              env := env (save_model "model.pt" {| self := s1; env := os |}).2 |} in
  let w1 := (load_model "model.pt" false w).2 in
  let w2 := (train 1 42 w1).2 in
  files (env w) !! "model.pt" = Some ck /\
  load_model "model.pt" false w = (Ok tt, w1) /\
  train 1 42 w1 = (Ok tt, w2) /\
  ck_total_epochs ck = 2 /\
  total_epochs (self w2) = ck_total_epochs ck + Z.max 0 1 /\
  (exists tls vls,
     length tls = Z.to_nat 1 /\ length vls = Z.to_nat 1 /\
     losses (self w2) = ck_losses ck ++ tls /\
     val_losses (self w2) = ck_val_losses ck ++ vls) /\
  in_step (self w2).
Proof.
  intros s1 ck w w1 w2.
  assert (H1 : files (env w) !! "model.pt" = Some ck)
    by (vm_compute; reflexivity).
  assert (H2 : load_model "model.pt" false w = (Ok tt, w1))
    by (vm_compute; reflexivity).
  assert (H3 : train 1 42 w1 = (Ok tt, w2)) by (vm_compute; reflexivity).
  assert (H4 : ck_total_epochs ck = 2) by (vm_compute; reflexivity).
  assert (H5 : ck_total_epochs ck = Z.of_nat (length (ck_losses ck)))
    by (vm_compute; reflexivity).
  assert (H6 : length (ck_losses ck) = length (ck_val_losses ck))
    by (vm_compute; reflexivity).
  pose proof (resume_from_checkpoint "model.pt" false 1 42 w ck
                w1 w2 H1 H2 H3)
    as (R1 & R2 & R3).
  exact (conj H1 (conj H2 (conj H3 (conj H4 (conj R1 (conj R2
           (R3 H5 H6))))))).
Defined.

(** ["cuda"] on a build without CUDA. *)
Lemma to_raises_with_device_assigned_witness :
  let w : @World Shaped.torch :=
    {| self := Shaped.session [1; 2]%float 1; env := Shaped.os |} in
  let e := OtherException "AssertionError" in
  module_to (state_dict (model (self w))) "cuda" = Err e /\
  (forall msg, e <> RuntimeError msg) /\
  to "cuda" w =
  (Err e, {| self := with_device (Some "cuda") (self w); env := env w |}).
Proof.
  intros w e.
  assert (H1 : module_to (state_dict (model (self w))) "cuda" = Err e)
    by reflexivity.
  assert (H2 : forall msg, e <> RuntimeError msg) by (intros msg; discriminate).
  exact (conj H1 (conj H2 (to_raises_with_device_assigned "cuda" w e H1 H2))).
Defined.

(** The same parameters, once in training mode and once in evaluation
    mode. *)
Lemma predict_depends_on_parameters_and_device_witness :
  let x := tensor [3%float] in
  let w1 := ready None in
  let w2 := (predict x w1).2 in
  training (model (self w1)) = true /\
  training (model (self w2)) = false /\
  state_dict (model (self w1)) = state_dict (model (self w2)) /\
  device (self w1) = device (self w2) /\
  (predict x w1).1 = (predict x w2).1.
Proof.
  intros x w1 w2.
  assert (H1 : state_dict (model (self w1)) = state_dict (model (self w2)))
    by reflexivity.
  assert (H2 : device (self w1) = device (self w2)) by reflexivity.
  exact (conj eq_refl (conj eq_refl (conj H1 (conj H2
           (predict_depends_on_parameters_and_device x w1 w2 H1 H2))))).
Defined.

(** The four ways, on sessions set up for each. *)
Lemma add_grap_without_graph_witness :
  let w0 := fresh in
  let w1 := no_device in
  let w2 := after (set_loaders [] None;; set_tensorboard "run" "runs") in
  let w3 := after (set_loaders data None;; set_tensorboard "run" "runs") in
  (add_grap w0).1 = Ok None /\
  warnings (env (add_grap w0).2) =
    ["Train loader not found. Cannot add graph to tensorboard."] /\
  add_grap w1 = (Ok None, w1) /\
  add_grap w2 = (Err (OtherException "StopIteration"), w2) /\
  add_grap w3 = (Err (AttributeError "device"), w3).
Proof.
  intros w0 w1 w2 w3.
  pose proof (add_grap_without_graph w0) as (H0 & _).
  pose proof (add_grap_without_graph w1) as (_ & H1 & _).
  pose proof (add_grap_without_graph w2) as (_ & _ & H2 & _).
  pose proof (add_grap_without_graph w3) as (_ & _ & _ & H3).
  split; [rewrite (H0 eq_refl); reflexivity|].
  split; [rewrite (H0 eq_refl); reflexivity|].
  split; [exact (H1 _ eq_refl eq_refl)|].
  split; [exact (H2 _ eq_refl eq_refl)|].
  exact (H3 _ _ _ eq_refl eq_refl eq_refl).
Defined.
